(** * UnsupervisedSampler: positive and negative (target, context) pairs

    A shallow embedding of [stellargraph/data/unsupervised_sampler.py]:
    the constructor [__init__], the batch size check
    [_check_parameter_values] and the sampling pipeline [run].

    Python exceptions are results, the random streams and the graph live in
    an explicit world that every call threads, and the collaborators that
    the module imports (numpy's [RandomState], the random walkers, the
    graph) are an interface, [Externals], with the part of their contract
    that the sampler relies on, [ExternalsOk].  numpy's float64 values are
    idealised as real numbers extended with the two special results of a
    division by zero. *)

From Stdlib Require Import List ZArith Arith Lia Bool String.
From Stdlib Require Import Permutation Reals Lra.
Import ListNotations.

Set Implicit Arguments.

(** ** Python values, exceptions and results *)

(** A float is [mantissa * 2 ^ exponent]. *)

Inductive pyval : Type :=
| PyNone
| PyBool (b : bool)
| PyInt (z : Z)
| PyFloat (mantissa exponent : Z)
| PyStr (s : string).

Inductive exn_class : Type := ValueError | TypeError | IndexError | AttributeError.

Record pyexn : Type := mk_exn { exn_cls : exn_class; exn_msg : string }.

Inductive result (A : Type) : Type :=
| Ok (a : A)
| Raise (e : pyexn).

Arguments Ok {A} a.
Arguments Raise {A} e.

Definition is_ok {A} (r : result A) : bool :=
  match r with Ok _ => true | Raise _ => false end.

Definition rbind {A B} (r : result A) (k : A -> result B) : result B :=
  match r with
  | Ok a => k a
  | Raise e => Raise e
  end.

(** A comprehension whose body may raise: the first exception wins. *)
Fixpoint rmapM {A B} (f : A -> result B) (l : list A) : result (list B) :=
  match l with
  | [] => Ok []
  | x :: xs => rbind (f x) (fun y => rbind (rmapM f xs) (fun ys => Ok (y :: ys)))
  end.

(** ["({}) msg".format(type(self).__name__)] *)
Definition class_name : string := "UnsupervisedSampler".

Definition fmt (msg : string) : string :=
  ("(" ++ class_name ++ ") " ++ msg)%string.

(** ** [_check_parameter_values] *)

Definition msg_batch_size_missing : string :=
  fmt "The batch_size must be provided to generate samples for each batch in the epoch".

Definition msg_batch_size_positive : string :=
  fmt "The batch_size must be positive integer.".

Definition msg_batch_size_even : string :=
  fmt "The batch_size must be an even integer since equal number of positive and negative samples are generated in each batch.".

Definition _check_parameter_values (batch_size : pyval) : result unit :=
  match batch_size with
  | PyNone => Raise (mk_exn ValueError msg_batch_size_missing)
  | PyInt b =>
      if (b <? 1)%Z then Raise (mk_exn ValueError msg_batch_size_positive)
      else if negb (b mod 2 =? 0)%Z then Raise (mk_exn ValueError msg_batch_size_even)
      else Ok tt
  | _ => Raise (mk_exn TypeError msg_batch_size_positive)
  end.

(** The integer behind a value that is used as a slice bound and as the
    step of [range]; anything else is a [TypeError] there. *)
Definition py_index (v : pyval) : result Z :=
  match v with
  | PyInt z => Ok z
  | PyBool b => Ok (if b then 1%Z else 0%Z)
  | _ => Raise (mk_exn TypeError "object cannot be interpreted as an integer")
  end.

(** ** Arrays *)

(** [walk[0]] *)
Definition walk_head {A} (walk : list A) : result A :=
  match walk with
  | x :: _ => Ok x
  | [] => Raise (mk_exn IndexError "list index out of range")
  end.

(** [walk[1:]] *)
Definition walk_contexts {A} (walk : list A) : list A := tl walk.

(** [targets = [walk[0] for walk in walks]] *)
Definition targets_of {A} (walks : list (list A)) : result (list A) :=
  rmapM walk_head walks.

(** The comprehension under [np.array] at the definition of
    [positive_pairs]: walks outside, contexts of a walk inside. *)
Definition pair_list {A} (targets : list A) (walks : list (list A)) : list (A * A) :=
  flat_map (fun tw => map (fun positive_context => (fst tw, positive_context))
                          (walk_contexts (snd tw)))
           (combine targets walks).

(** The number of dimensions of [np.array(rows)] for a list of 2-tuples:
    an empty list gives a one-dimensional array of shape (0,), any other
    gives shape (n, 2). *)
Definition ndim {A} (rows : list (A * A)) : nat :=
  match rows with [] => 1%nat | _ :: _ => 2%nat end.

(** [positive_pairs[:, 0]] *)
Definition column0 {A} (rows : list (A * A)) : result (list A) :=
  match ndim rows with
  | 2%nat => Ok (map fst rows)
  | _ => Raise (mk_exn IndexError "too many indices for array")
  end.

(** [np.column_stack((col, samples))] *)
Definition column_stack {A} (col samples : list A) : result (list (A * A)) :=
  if Nat.eqb (List.length col) (List.length samples) then Ok (combine col samples)
  else Raise (mk_exn ValueError "all the input array dimensions except for the concatenation axis must match exactly").

(** [np.repeat([1, 0], n)] *)
Definition np_repeat_1_0 (n : nat) : list Z := repeat 1%Z n ++ repeat 0%Z n.

(** [range(0, stop, step)] for [step > 0]: [ceil(stop / step)] values. *)
Definition py_range (stop step : nat) : list nat :=
  map (fun k => k * step) (seq 0 ((stop + step - 1) / step)).

(** [a[i : j]] *)
Definition slice {A} (a : list A) (i j : nat) : list A :=
  firstn (j - i) (skipn i a).

(** [a[idx]] for an array of indices [idx] *)
Definition take_rows {A} (a : list A) (idx : list nat) : result (list A) :=
  rmapM (fun i => match nth_error a i with
                  | Some x => Ok x
                  | None => Raise (mk_exn IndexError "index is out of bounds for axis 0")
                  end) idx.

(** [[indices[i : i + batch_size] for i in range(0, len(indices), batch_size)]] *)
Definition batch_indices_of (indices : list nat) (batch_size : nat) : list (list nat) :=
  map (fun i => slice indices i (i + batch_size))
      (py_range (List.length indices) batch_size).

(** ** Floats: the sampling distribution *)

Inductive npfloat : Type :=
| Fin (r : R)
| PosInf
| NegInf
| NaN.

(** [d ** 0.75] for a degree [d] *)
Definition pow075 (d : nat) : R :=
  match d with
  | O => 0%R
  | S _ => Rpower (INR d) (3 / 4)
  end.

(** [np.sum] *)
Definition np_sum (xs : list R) : R := fold_right Rplus 0%R xs.

(** numpy's division of floats: a division by zero is a warning, and its
    result is nan for 0/0 and an infinity otherwise. *)
Definition true_divide (x s : R) : npfloat :=
  if Req_dec_T s 0 then
    if Req_dec_T x 0 then NaN
    else if Rlt_dec x 0 then NegInf else PosInf
  else Fin (x / s).

Definition is_nan (x : npfloat) : Prop := x = NaN.

Definition prob_value (x : npfloat) : R :=
  match x with Fin r => r | _ => 0%R end.

(** The tolerance of numpy's check of [p]: the square root of the float64
    epsilon [2^-52]. *)
Definition atol : R := (/ 2 ^ 26)%R.

(** What [RandomState.choice] demands of [p] before it draws. *)
Definition valid_probabilities (p : list npfloat) : Prop :=
  Forall (fun x => exists r, x = Fin r /\ (0 <= r)%R) p /\
  (Rabs (np_sum (map prob_value p) - 1) <= atol)%R.

(** ** The collaborators *)

Definition loc : Type := nat.

(** A random stream is the process-wide one or an object of its own. *)
Inductive handle : Type :=
| Global
| Heap (l : loc).

Inductive walker_kind : Type := UniformRandomWalk | BiasedRandomWalk.

(** A walker object: its class, its graph and its random stream. *)
Record Walker : Type := mk_walker {
  wk_kind : walker_kind;
  wk_graph : loc;
  wk_rng : handle
}.

(** The hyperparameters [p], [q] and [weighted] of a biased walk. *)
Record bias : Type := mk_bias { bias_p : pyval; bias_q : pyval; bias_weighted : pyval }.

(** What the module imports and does not define.  [NodeId] is the type of
    the node identifiers; [Graph] is the state of a [StellarGraph], of which
    the sampler reads [nodes()], in enumeration order, and
    [node_degrees()[n]].  [np_choice] and [np_permutation] are the two
    methods of [numpy.random.RandomState] that [run] calls, on the state of
    a stream; [walker_run] is the [run] method of a walker on the state of
    the walker's stream; [is_real_iterable] is the imported test of the
    [nodes] argument and [py_list] is [list(nodes)]. *)
Class Externals : Type := {
  NodeId : Type;
  Graph : Type;
  g_nodes : Graph -> list NodeId;
  node_degrees : Graph -> NodeId -> nat;
  NpState : Type;
  PyState : Type;
  np_seed : Z -> NpState;
  py_seed : Z -> PyState;
  np_choice : NpState -> list NodeId -> nat -> list npfloat ->
              result (list NodeId) * NpState;
  np_permutation : NpState -> nat -> list nat * NpState;
  walker_run : walker_kind -> Graph -> PyState ->
               list NodeId -> Z -> Z -> option bias ->
               result (list (list NodeId)) * PyState;
  nodes_obj : Type;
  is_real_iterable : nodes_obj -> bool;
  py_list : nodes_obj -> list NodeId
}.

(** The part of the collaborators' contracts that [run] relies on.
    [permutation(n)] is a permutation of [0 .. n-1].  [choice] raises
    [ValueError] when [p] is not a vector of probabilities, as numpy
    documents it.  A walker produces its walks from the root nodes ("a
    random walk is generated from each root node", in the docstring of
    [run]), so no root gives no walk. *)
Class ExternalsOk (E : Externals) : Prop := {
  np_permutation_perm :
    forall st n, Permutation (fst (np_permutation st n)) (seq 0 n);
  np_choice_checks_p :
    forall st a n p, ~ valid_probabilities p ->
                     exists e, fst (np_choice st a n p) = Raise e;
  walker_run_no_roots :
    forall k G st len n b walks st',
      walker_run k G st [] len n b = (Ok walks, st') -> walks = []
}.

(** ** The world: graphs and random streams *)

Record World `{Externals} : Type := mk_world {
  graphs : loc -> Graph;
  np_global : NpState;
  np_heap : loc -> NpState;
  np_next : loc;
  py_global : PyState;
  py_heap : loc -> PyState;
  py_next : loc
}.

Arguments mk_world {_} _ _ _ _ _ _ _.

Definition upd {A} (f : loc -> A) (l : loc) (v : A) : loc -> A :=
  fun l' => if Nat.eqb l' l then v else f l'.

Section WithExternals.
Context {E : Externals}.

Definition np_read (h : handle) (w : World) : NpState :=
  match h with Global => np_global w | Heap l => np_heap w l end.

Definition np_write (h : handle) (st : NpState) (w : World) : World :=
  match h with
  | Global => mk_world (graphs w) st (np_heap w) (np_next w)
                       (py_global w) (py_heap w) (py_next w)
  | Heap l => mk_world (graphs w) (np_global w) (upd (np_heap w) l st) (np_next w)
                       (py_global w) (py_heap w) (py_next w)
  end.

Definition py_read (h : handle) (w : World) : PyState :=
  match h with Global => py_global w | Heap l => py_heap w l end.

Definition py_write (h : handle) (st : PyState) (w : World) : World :=
  match h with
  | Global => mk_world (graphs w) (np_global w) (np_heap w) (np_next w)
                       st (py_heap w) (py_next w)
  | Heap l => mk_world (graphs w) (np_global w) (np_heap w) (np_next w)
                       (py_global w) (upd (py_heap w) l st) (py_next w)
  end.

Definition np_alloc (st : NpState) (w : World) : loc * World :=
  (np_next w,
   mk_world (graphs w) (np_global w) (upd (np_heap w) (np_next w) st) (S (np_next w))
            (py_global w) (py_heap w) (py_next w)).

Definition py_alloc (st : PyState) (w : World) : loc * World :=
  (py_next w,
   mk_world (graphs w) (np_global w) (np_heap w) (np_next w)
            (py_global w) (upd (py_heap w) (py_next w) st) (S (py_next w))).

(** ** Computations: a result and the world after it *)

Definition M (A : Type) : Type := World -> result A * World.

Definition ret {A} (a : A) : M A := fun w => (Ok a, w).

Definition raise {A} (e : pyexn) : M A := fun w => (Raise e, w).

Definition bind {A B} (m : M A) (k : A -> M B) : M B :=
  fun w => match m w with
           | (Ok a, w') => k a w'
           | (Raise e, w') => (Raise e, w')
           end.

Definition lift {A} (r : result A) : M A := fun w => (r, w).

End WithExternals.

Declare Scope py_scope.
Delimit Scope py_scope with py.
Notation "x <- m ;; k" := (bind m (fun x => k))
  (at level 61, m at next level, right associativity) : py_scope.
Notation "m ;;; k" := (bind m (fun _ => k))
  (at level 61, right associativity) : py_scope.

Local Open Scope py_scope.

(** ** The sampler *)

Section Sampler.
Context {E : Externals}.

(** The arguments of the constructor as Python passes them: [G] and
    [walker] may be objects of any class. *)
Inductive graph_arg : Type :=
| GraphRef (l : loc)
| NotAGraph (v : pyval).

Inductive walker_arg : Type :=
| WalkerNone
| WalkerRef (wk : Walker)
| WalkerOther (v : pyval).

(** [kwargs.get(key, default)] *)
Fixpoint kwargs_get (kwargs : list (string * pyval)) (key : string) (default : pyval) : pyval :=
  match kwargs with
  | [] => default
  | (k, v) :: rest => if String.eqb k key then v else kwargs_get rest key default
  end.

(** The attributes of an instance.  [self_bias] holds [self.p], [self.q]
    and [self.weighted], which exist only with a biased walker. *)
Record UnsupervisedSampler : Type := mk_sampler {
  self_graph : loc;
  self_walker : Walker;
  self_bias : option bias;
  self_nodes : list NodeId;
  self_length : Z;
  self_number_of_walks : Z;
  self_np_random : handle
}.

Definition msg_graph : string :=
  fmt "Graph must be a StellarGraph or StellarDigraph object.".
Definition msg_walker : string :=
  fmt "Only the UniformRandomWalks and BiasedRandomWalks are possible".
Definition msg_nodes : string :=
  "nodes parameter should be an iterable of node IDs.".
Definition msg_length : string :=
  fmt "For generating (target,context) samples, walk length has to be at least 2".
Definition msg_number_of_walks : string :=
  fmt "At least 1 walk from each head node has to be done".

(** Modelled from the spec: [stellargraph.random.random_state], which is
    imported and not defined here.  An integer seed initialises streams of
    the instance's own, Python's and numpy's; without a seed the ambient,
    process-wide streams are used. *)
Definition random_state (seed : option Z) : M (handle * handle) :=
  match seed with
  | None => ret (Global, Global)
  | Some s =>
      fun w =>
        let (lp, w1) := py_alloc (py_seed s) w in
        let (ln, w2) := np_alloc (np_seed s) w1 in
        (Ok (Heap lp, Heap ln), w2)
  end.

(** Modelled from the spec: the constructor of the imported
    [UniformRandomWalk]; the default walker is an unbiased uniform walker
    on the same graph, seeded the same way. *)
Definition new_UniformRandomWalk (G : loc) (seed : option Z) : M Walker :=
  rs <- random_state seed ;;
  ret (mk_walker UniformRandomWalk G (fst rs)).

Definition __init__ (G : graph_arg) (nodes : option nodes_obj)
    (length number_of_walks : Z) (seed : option Z) (walker : walker_arg)
    (kwargs : list (string * pyval)) : M UnsupervisedSampler :=
  graph <- match G with
           | GraphRef l => ret l
           | NotAGraph _ => raise (mk_exn ValueError msg_graph)
           end ;;
  wk <- match walker with
        | WalkerRef wk => ret wk
        | WalkerOther _ => raise (mk_exn TypeError msg_walker)
        | WalkerNone => new_UniformRandomWalk graph seed
        end ;;
  let b := match wk_kind wk with
           | BiasedRandomWalk =>
               Some (mk_bias (kwargs_get kwargs "p" (PyFloat 1 0))
                             (kwargs_get kwargs "q" (PyFloat 1 0))
                             (kwargs_get kwargs "weighted" (PyBool false)))
           | UniformRandomWalk => None
           end in
  self_nodes <- match nodes with
                | None => fun w => (Ok (g_nodes (graphs w graph)), w)
                | Some x => if is_real_iterable x then ret (py_list x)
                            else raise (mk_exn ValueError msg_nodes)
                end ;;
  (if (length <? 2)%Z then raise (mk_exn ValueError msg_length) else ret tt) ;;;
  (if (number_of_walks <? 1)%Z then raise (mk_exn ValueError msg_number_of_walks)
   else ret tt) ;;;
  rs <- random_state seed ;;
  ret (mk_sampler graph wk b self_nodes length number_of_walks (snd rs)).

(** [self.np_random.choice(a, size=size, p=p)] *)
Definition rs_choice (h : handle) (a : list NodeId) (size : nat) (p : list npfloat)
  : M (list NodeId) :=
  fun w => let (r, st) := np_choice (np_read h w) a size p in (r, np_write h st w).

(** [self.np_random.permutation(n)] *)
Definition rs_permutation (h : handle) (n : nat) : M (list nat) :=
  fun w => let (l, st) := np_permutation (np_read h w) n in (Ok l, np_write h st w).

(** [walker.run(nodes=.., length=.., n=.., ...)] *)
Definition walker_call (wk : Walker) (nodes : list NodeId) (length n : Z)
    (b : option bias) : M (list (list NodeId)) :=
  fun w => let (r, st) := walker_run (wk_kind wk) (graphs w (wk_graph wk))
                                     (py_read (wk_rng wk) w) nodes length n b in
           (r, py_write (wk_rng wk) st w).

(** Lines 148-151 of the source, on the graph as it is at the call. *)
Definition sampling_distribution_of (G : Graph) : list R :=
  map (fun n => pow075 (node_degrees G n)) (g_nodes G).

Definition sampling_distribution_norm_of (G : Graph) : list npfloat :=
  map (fun x => true_divide x (np_sum (sampling_distribution_of G)))
      (sampling_distribution_of G).

Definition Batch : Type := (list (NodeId * NodeId) * list Z)%type.

(** The local variables of [run] when it returns. *)
Record run_locals : Type := mk_locals {
  all_nodes : list NodeId;
  sampling_distribution_norm : list npfloat;
  walks : list (list NodeId);
  targets : list NodeId;
  positive_pairs : list (NodeId * NodeId);
  negative_samples : list NodeId;
  negative_pairs : list (NodeId * NodeId);
  pairs : list (NodeId * NodeId);
  labels : list Z;
  indices : list nat;
  batch_indices : list (list nat);
  batches : list Batch
}.

(** The call of the walker in [run]: the branch on the walker's class. *)
Definition run_walks (self : UnsupervisedSampler) : M (list (list NodeId)) :=
  match wk_kind (self_walker self) with
  | UniformRandomWalk =>
      walker_call (self_walker self) (self_nodes self) (self_length self)
                  (self_number_of_walks self) None
  | BiasedRandomWalk =>
      match self_bias self with
      | Some b => walker_call (self_walker self) (self_nodes self)
                              (self_length self) (self_number_of_walks self) (Some b)
      | None => raise (mk_exn AttributeError "object has no attribute 'p'")
      end
  end.

(** [pairs[i], labels[i]] for one chunk [i] of indices *)
Definition batch_of (pairs : list (NodeId * NodeId)) (labels : list Z) (i : list nat)
  : result Batch :=
  rbind (take_rows pairs i) (fun ps => rbind (take_rows labels i) (fun ls => Ok (ps, ls))).

(** [run], keeping every local variable. *)
Definition run_body (self : UnsupervisedSampler) (batch_size : pyval) : M run_locals :=
  lift (_check_parameter_values batch_size) ;;;
  G <- (fun w => (Ok (graphs w (self_graph self)), w)) ;;
  let all_nodes := g_nodes G in
  let sampling_distribution_norm := sampling_distribution_norm_of G in
  walks <- run_walks self ;;
  targets <- lift (targets_of walks) ;;
  let positive_pairs := pair_list targets walks in
  negative_samples <- rs_choice (self_np_random self) all_nodes
                                (List.length positive_pairs)
                                sampling_distribution_norm ;;
  col <- lift (column0 positive_pairs) ;;
  negative_pairs <- lift (column_stack col negative_samples) ;;
  let pairs := positive_pairs ++ negative_pairs in
  let labels := np_repeat_1_0 (List.length positive_pairs) in
  indices <- rs_permutation (self_np_random self) (List.length pairs) ;;
  step <- lift (py_index batch_size) ;;
  let batch_indices := batch_indices_of indices (Z.to_nat step) in
  batches <- lift (rmapM (batch_of pairs labels) batch_indices) ;;
  ret (mk_locals all_nodes sampling_distribution_norm walks targets positive_pairs
                 negative_samples negative_pairs pairs labels indices batch_indices
                 batches).

Definition run (self : UnsupervisedSampler) (batch_size : pyval) : M (list Batch) :=
  l <- run_body self batch_size ;;
  ret (batches l).

(** A sequence of [run] calls on one instance: the results in call order. *)
Fixpoint run_calls (self : UnsupervisedSampler) (sizes : list pyval) (w : World)
  : list (result (list Batch)) * World :=
  match sizes with
  | [] => ([], w)
  | b :: rest =>
      let (r, w1) := run self b w in
      let (rs, w2) := run_calls self rest w1 in
      (r :: rs, w2)
  end.

End Sampler.

(** ** The steps of a call of [run] that returns *)

Section Steps.
Context {E : Externals}.

(** What the local variables of a returning call are, statement by
    statement, between the world [w] at the call and [w'] at the return;
    the two worlds between are the one after the walks and the one after
    the negative samples. *)
Record run_steps (self : UnsupervisedSampler) (batch_size : Z) (w : World)
    (l : run_locals) (step_world_walks step_world_choice w' : World) : Prop := {
  step_check : (1 <= batch_size)%Z /\ (batch_size mod 2 = 0)%Z;
  step_all_nodes : all_nodes l = g_nodes (graphs w (self_graph self));
  step_distribution :
    sampling_distribution_norm l =
    sampling_distribution_norm_of (graphs w (self_graph self));
  step_walks : run_walks self w = (Ok (walks l), step_world_walks);
  step_targets : targets_of (walks l) = Ok (targets l);
  step_positive_pairs : positive_pairs l = pair_list (targets l) (walks l);
  step_negative_samples :
    rs_choice (self_np_random self) (all_nodes l) (List.length (positive_pairs l))
              (sampling_distribution_norm l) step_world_walks
    = (Ok (negative_samples l), step_world_choice);
  step_negative_pairs :
    exists col, column0 (positive_pairs l) = Ok col /\
                column_stack col (negative_samples l) = Ok (negative_pairs l);
  step_pairs : pairs l = positive_pairs l ++ negative_pairs l;
  step_labels : labels l = np_repeat_1_0 (List.length (positive_pairs l));
  step_indices :
    rs_permutation (self_np_random self) (List.length (pairs l)) step_world_choice
    = (Ok (indices l), w');
  step_batch_indices :
    batch_indices l = batch_indices_of (indices l) (Z.to_nat batch_size);
  step_batches : rmapM (batch_of (pairs l) (labels l)) (batch_indices l) = Ok (batches l)
}.

(** [x] is the element at index [i] of [a]. *)
Definition indexed {A} (a : list A) : nat -> A -> Prop :=
  fun i x => nth_error a i = Some x.

(** The rows of all batches, each with its label. *)
Definition labelled_rows (bs : list Batch) : list (NodeId * NodeId * Z) :=
  List.concat (map (fun batch => combine (fst batch) (snd batch)) bs).

(** ** Two instances that see the same thing *)

(** Everything of an instance but the places of its objects. *)
Definition same_config (a b : UnsupervisedSampler) : Prop :=
  wk_kind (self_walker a) = wk_kind (self_walker b) /\
  self_bias a = self_bias b /\
  self_nodes a = self_nodes b /\
  self_length a = self_length b /\
  self_number_of_walks a = self_number_of_walks b.

(** What a call of [run] reads of the world: the graph, the walker's graph
    and the states of the two streams. *)
Definition view (self : UnsupervisedSampler) (w : World)
  : Graph * Graph * NpState * PyState :=
  (graphs w (self_graph self),
   graphs w (wk_graph (self_walker self)),
   np_read (self_np_random self) w,
   py_read (wk_rng (self_walker self)) w).

(** A stream of a walker that was made before the call is below the next
    free place. *)
Definition py_allocated (h : handle) (w : World) : Prop :=
  match h with
  | Global => True
  | Heap l => l < py_next w
  end.

(** The objects passed to the constructor are in the same state in two
    worlds: the graph, and the graph and the stream of a walker that the
    caller supplies. *)
Definition args_synced (G : graph_arg) (walker : walker_arg) (wa wb : World) : Prop :=
  match G with
  | GraphRef l => graphs wa l = graphs wb l
  | NotAGraph _ => True
  end /\
  match walker with
  | WalkerRef wk => graphs wa (wk_graph wk) = graphs wb (wk_graph wk) /\
                    py_read (wk_rng wk) wa = py_read (wk_rng wk) wb /\
                    py_allocated (wk_rng wk) wa /\ py_allocated (wk_rng wk) wb
  | _ => True
  end.

(** Two computations agree for two instances when, from worlds that the
    instances see alike, they have the same result and leave worlds that
    the instances see alike. *)
Definition agree {A} (e1 e2 : UnsupervisedSampler) (m1 m2 : M A) : Prop :=
  forall wa wb, view e1 wa = view e2 wb ->
                fst (m1 wa) = fst (m2 wb) /\
                view e1 (snd (m1 wa)) = view e2 (snd (m2 wb)).

(** The [nodes] argument passes the constructor's test. *)
Definition nodes_ok (nodes : option nodes_obj) : Prop :=
  match nodes with
  | None => True
  | Some x => is_real_iterable x = true
  end.

(** [self.nodes] for a [nodes] argument that passes the test, on graph [G]. *)
Definition root_nodes (nodes : option nodes_obj) (G : Graph) : list NodeId :=
  match nodes with
  | None => g_nodes G
  | Some x => py_list x
  end.

End Steps.

(** [sum(labels)] *)
Definition py_sum (xs : list Z) : Z := fold_right Z.add 0%Z xs.

(** A decision of [valid_probabilities]. *)
Definition fin_nonneg_b (x : npfloat) : bool :=
  match x with
  | Fin r => if Rle_dec 0 r then true else false
  | _ => false
  end.

Definition valid_probabilities_b (p : list npfloat) : bool :=
  forallb fin_nonneg_b p &&
  (if Rle_dec (Rabs (np_sum (map prob_value p) - 1)) atol then true else false).

(** ** What a call leaves alone, and what the rows of the output are *)

Section Frame.
Context {E : Externals}.

(** Between the worlds [w] and [w'] nothing has changed but, possibly, the
    numpy stream of the instance and the stream of its walker: the graphs,
    the free places and every other stream are as they were. *)
Definition touches_only (self : UnsupervisedSampler) (w w' : World) : Prop :=
  graphs w' = graphs w /\
  np_next w' = np_next w /\
  py_next w' = py_next w /\
  (forall h, h <> self_np_random self -> np_read h w' = np_read h w) /\
  (forall h, h <> wk_rng (self_walker self) -> py_read h w' = py_read h w).

(** The bias arguments that [run] passes to the walker: none for a uniform
    walker, [self.p], [self.q] and [self.weighted] for a biased one. *)
Definition walker_bias (self : UnsupervisedSampler) : option bias :=
  match wk_kind (self_walker self) with
  | UniformRandomWalk => None
  | BiasedRandomWalk => self_bias self
  end.

(** The rows of the output that carry the label [v]. *)
Definition rows_labelled (v : Z) (rows : list (NodeId * NodeId * Z))
  : list (NodeId * NodeId) :=
  map fst (filter (fun row => Z.eqb (snd row) v) rows).

End Frame.

(** [ceil(n / b)], the number of values of [range(0, n, b)]. *)
Definition ceil_div (n b : nat) : nat := (n + b - 1) / b.

(** ** An instance of the collaborators

    Node identifiers are strings, a graph is the list of its nodes with
    their degrees, a stream is a counter.  [choice] checks [p] and then
    cycles through [a] from the counter, [permutation] rotates [0 .. n-1]
    by the counter, and a walk from a root stays on one node of the graph
    picked by the counter. *)
Module Toy.

Definition graph : Type := list (string * nat).

Fixpoint degree (G : graph) (n : string) : nat :=
  match G with
  | [] => 0
  | (m, d) :: rest => if String.eqb m n then d else degree rest n
  end.

Definition choice (st : nat) (a : list string) (size : nat) (p : list npfloat)
  : result (list string) * nat :=
  if valid_probabilities_b p then
    match a with
    | [] => (Raise (mk_exn ValueError "'a' cannot be empty unless no samples are taken"), st)
    | x :: _ =>
        (Ok (map (fun k => nth ((st + k) mod List.length a) a x) (seq 0 size)), st + size)
    end
  else (Raise (mk_exn ValueError "probabilities do not sum to 1"), st).

Definition permutation (st : nat) (n : nat) : list nat * nat :=
  (skipn (st mod n) (seq 0 n) ++ firstn (st mod n) (seq 0 n), S st).

Definition walk (G : graph) (st : nat) (length : Z) (root : string) : list string :=
  root :: repeat (nth (st mod List.length G) (map fst G) root) (Z.to_nat length - 1).

Definition walks_from (kind : walker_kind) (G : graph) (st : nat) (roots : list string)
    (length n : Z) (b : option bias) : result (list (list string)) * nat :=
  (Ok (flat_map (fun root => repeat (walk G st length root) (Z.to_nat n)) roots), S st).

#[export] Instance externals : Externals := {
  NodeId := string;
  Graph := graph;
  g_nodes := map fst;
  node_degrees := degree;
  NpState := nat;
  PyState := nat;
  np_seed := Z.to_nat;
  py_seed := Z.to_nat;
  np_choice := choice;
  np_permutation := permutation;
  walker_run := walks_from;
  nodes_obj := option (list string);
  is_real_iterable := fun x => match x with Some _ => true | None => false end;
  py_list := fun x => match x with Some l => l | None => [] end
}.

(** Nodes A, B, C, D of degrees 1, 1, 2, 2. *)
Definition G4 : graph := [("A", 1); ("B", 1); ("C", 2); ("D", 2)]%string.

(** Two isolated nodes. *)
Definition G0 : graph := [("A", 0); ("B", 0)]%string.

Definition world : World :=
  mk_world (fun l => match l with O => G4 | _ => G0 end) 0 (fun _ => 0) 0 0 (fun _ => 0) 0.

(** The instance that [UnsupervisedSampler(G4, length=2, number_of_walks=1,
    seed=1)] constructs in [world], and the world after it. *)
Definition sampler : UnsupervisedSampler :=
  mk_sampler 0 (mk_walker UniformRandomWalk 0 (Heap 0)) None
             ["A"; "B"; "C"; "D"]%string 2 1 (Heap 1).

Definition world1 : World :=
  mk_world (graphs world) 0 (upd (upd (np_heap world) 0 1) 1 1) 2 0
           (upd (upd (py_heap world) 0 1) 1 1) 2.

(** The local variables of [sampler.run(4)] in [world1], and the world
    after the call. *)
Definition locals4 : run_locals :=
  mk_locals ["A"; "B"; "C"; "D"]%string
            (sampling_distribution_norm_of G4)
            [["A"; "B"]; ["B"; "B"]; ["C"; "B"]; ["D"; "B"]]%string
            ["A"; "B"; "C"; "D"]%string
            [("A", "B"); ("B", "B"); ("C", "B"); ("D", "B")]%string
            ["B"; "C"; "D"; "A"]%string
            [("A", "B"); ("B", "C"); ("C", "D"); ("D", "A")]%string
            [("A", "B"); ("B", "B"); ("C", "B"); ("D", "B");
             ("A", "B"); ("B", "C"); ("C", "D"); ("D", "A")]%string
            [1; 1; 1; 1; 0; 0; 0; 0]%Z
            [5; 6; 7; 0; 1; 2; 3; 4]
            [[5; 6; 7; 0]; [1; 2; 3; 4]]
            [([("B", "C"); ("C", "D"); ("D", "A"); ("A", "B")], [0; 0; 0; 1]%Z);
             ([("B", "B"); ("C", "B"); ("D", "B"); ("A", "B")], [1; 1; 1; 0]%Z)]%string.

Definition world_walks : World := py_write (Heap 0) 2 world1.
Definition world_choice : World := np_write (Heap 1) 5 world_walks.
Definition world2 : World := np_write (Heap 1) 6 world_choice.

(** An instance on the graph of isolated nodes, at place 1 of [world]. *)
Definition sampler0 : UnsupervisedSampler :=
  mk_sampler 1 (mk_walker UniformRandomWalk 1 (Heap 0)) None
             ["A"; "B"]%string 2 1 (Heap 1).

(** Another world: other streams, other free places, the same graph at
    place 0. *)
Definition world_b : World :=
  mk_world (fun _ => G4) 7 (fun _ => 9) 3 8 (fun _ => 6) 5.

(** An instance without root nodes. *)
Definition sampler_no_roots : UnsupervisedSampler :=
  mk_sampler 0 (mk_walker UniformRandomWalk 0 (Heap 0)) None [] 2 1 (Heap 1).

(** A second instance on the same graph, with streams of its own. *)
Definition sampler2 : UnsupervisedSampler :=
  mk_sampler 0 (mk_walker UniformRandomWalk 0 (Heap 2)) None
             ["A"; "B"; "C"; "D"]%string 2 1 (Heap 3).

End Toy.

(** * Properties *)

(** ** Results and comprehensions *)

Lemma rmapM_ok_Forall2 {A B} (f : A -> result B) (l : list A) (ys : list B) :
  rmapM f l = Ok ys <-> Forall2 (fun x y => f x = Ok y) l ys.
Proof.
  revert ys; induction l as [|x xs IH]; intros ys; simpl.
  - split; intros H.
    + injection H as <-. constructor.
    + inversion H. reflexivity.
  - destruct (f x) as [y|e] eqn:Hx; simpl.
    + destruct (rmapM f xs) as [zs|e] eqn:Hxs; simpl.
      * split; intros H.
        -- injection H as <-. constructor; [assumption|]. now apply IH.
        -- inversion H as [|? y' ? zs' Hy Hzs]; subst.
           rewrite Hx in Hy. injection Hy as <-.
           apply IH in Hzs. now injection Hzs as <-.
      * split; intros H; [discriminate|].
        inversion H as [|? y' ? zs' Hy Hzs]; subst.
        apply IH in Hzs. discriminate.
    + split; intros H; [discriminate|].
      inversion H as [|? y' ? zs' Hy Hzs]; subst. congruence.
Qed.

Lemma rmapM_ok_length {A B} (f : A -> result B) (l : list A) (ys : list B) :
  rmapM f l = Ok ys -> List.length ys = List.length l.
Proof.
  intros H. apply rmapM_ok_Forall2 in H.
  symmetry. eapply Forall2_length; eassumption.
Qed.

(** ** Walks to positive pairs *)

Lemma pair_list_cons {A} (t : A) (targets : list A) (walk : list A) (walks : list (list A)) :
  pair_list (t :: targets) (walk :: walks)
  = map (fun c => (t, c)) (walk_contexts walk) ++ pair_list targets walks.
Proof. reflexivity. Qed.

Lemma block_of_walk {A} (t : A) (ctx : list A) (i : nat) :
  1 <= i < S (List.length ctx) ->
  exists c, nth_error (t :: ctx) i = Some c /\
            nth_error (map (fun c => (t, c)) ctx) (i - 1) = Some (t, c).
Proof.
  intros Hi. destruct i as [|i]; [lia|].
  simpl. rewrite Nat.sub_0_r.
  destruct (nth_error ctx i) as [c|] eqn:Hc.
  - exists c. split; [reflexivity|].
    rewrite nth_error_map, Hc. reflexivity.
  - apply nth_error_None in Hc. lia.
Qed.

Lemma pair_list_blocks {A} (L : nat) (walks : list (list A)) :
  2 <= L ->
  Forall (fun walk => List.length walk = L) walks ->
  exists targets blocks,
    targets_of walks = Ok targets /\
    pair_list targets walks = List.concat blocks /\
    Forall2 (fun walk block =>
               List.length block = L - 1 /\
               forall i, 1 <= i < L ->
                 exists t c, nth_error walk 0 = Some t /\
                             nth_error walk i = Some c /\
                             nth_error block (i - 1) = Some (t, c))
            walks blocks /\
    List.length (pair_list targets walks) = List.length walks * (L - 1).
Proof.
  intros HL Hall. induction Hall as [|walk rest Hlen _ IH].
  - exists [], []. repeat split; constructor.
  - destruct IH as (targets & blocks & Ht & Hp & Hb & Hn).
    destruct walk as [|t ctx]; [simpl in Hlen; lia|].
    exists (t :: targets), (map (fun c => (t, c)) ctx :: blocks).
    unfold targets_of in *. simpl rmapM. rewrite Ht. simpl rbind.
    rewrite pair_list_cons. simpl walk_contexts. simpl List.concat.
    repeat split.
    + now rewrite Hp.
    + constructor; [|assumption]. split.
      * rewrite length_map. simpl in Hlen. lia.
      * intros i Hi. exists t.
        destruct (@block_of_walk A t ctx i) as (c & Hc1 & Hc2).
        { simpl in Hlen. lia. }
        exists c. repeat split; assumption.
    + rewrite length_app, length_map, Hn. simpl in Hlen. simpl. lia.
Qed.


(** ** The batch size check *)

Lemma check_parameter_values_ok (batch_size : pyval) :
  _check_parameter_values batch_size = Ok tt <->
  exists b, batch_size = PyInt b /\ (1 <= b)%Z /\ (b mod 2 = 0)%Z.
Proof.
  unfold _check_parameter_values. split.
  - destruct batch_size as [|?|b|? ?|?]; try discriminate.
    destruct (Z.ltb_spec b 1); [discriminate|].
    destruct (Z.eqb_spec (b mod 2) 0); [|discriminate].
    intros _. exists b. auto.
  - intros (b & -> & Hb & Hm).
    destruct (Z.ltb_spec b 1); [lia|].
    destruct (Z.eqb_spec (b mod 2) 0); [reflexivity|lia].
Qed.

(** ** A call of [run], statement by statement *)

Section Facts.
Context {E : Externals}.

Lemma run_body_steps (self : UnsupervisedSampler) (batch_size : pyval)
    (w : World) (l : run_locals) (w' : World) :
  run_body self batch_size w = (Ok l, w') ->
  exists b w1 w2, batch_size = PyInt b /\ run_steps self b w l w1 w2 w'.
Proof.
  unfold run_body, bind, lift, ret.
  destruct (_check_parameter_values batch_size) as [[]|e] eqn:Hcheck; [|discriminate].
  apply check_parameter_values_ok in Hcheck. destruct Hcheck as (b & -> & Hb).
  destruct (run_walks self w) as [[ws|e] w1] eqn:Hwalks; [|discriminate].
  destruct (targets_of ws) as [ts|e] eqn:Htargets; [|discriminate].
  destruct (rs_choice _ _ _ _ w1) as [[ns|e] w2] eqn:Hchoice; [|discriminate].
  destruct (column0 (pair_list ts ws)) as [col|e] eqn:Hcol; [|discriminate].
  destruct (column_stack col ns) as [nps|e] eqn:Hstack; [|discriminate].
  destruct (rs_permutation _ _ w2) as [[idx|e] w3] eqn:Hperm; [|discriminate].
  simpl py_index. cbv iota beta.
  destruct (rmapM _ _) as [bs|e] eqn:Hbatches; [|discriminate].
  intros H. injection H as <- <-.
  exists b, w1, w2. split; [reflexivity|].
  constructor; simpl; try reflexivity; try assumption.
  exists col. split; assumption.
Qed.

Lemma run_steps_run_body (self : UnsupervisedSampler) (b : Z)
    (w : World) (l : run_locals) (w1 w2 w' : World) :
  run_steps self b w l w1 w2 w' -> run_body self (PyInt b) w = (Ok l, w').
Proof.
  intros [Hb Hn Hd Hw Ht Hp Hc (col & Hcol & Hstack) Hps Hl Hi Hbi Hbs].
  unfold run_body, bind, lift, ret.
  assert (Hcheck : _check_parameter_values (PyInt b) = Ok tt).
  { apply check_parameter_values_ok. exists b. tauto. }
  rewrite Hcheck, Hw, Ht, <- Hp, <- Hn, <- Hd, Hc, Hcol, Hstack, <- Hps, Hi.
  simpl py_index. cbv iota beta.
  rewrite <- Hl, <- Hbi, Hbs.
  destruct l; simpl in *; subst; reflexivity.
Qed.

(** C1: for walks that all have length [L >= 2], the targets are read
    without an error and the positive pairs are the concatenation, in walk
    order, of one block per walk; the block of a walk has [L - 1] pairs and
    its pair number [i - 1] is [(walk[0], walk[i])], for [i] from [1] to
    [L - 1]; these are the targets and the positive pairs of every call of
    [run] that returns and whose walker gave these walks. *)
Theorem positive_pairs_of_walks (L : nat) (ws : list (list NodeId)) :
  2 <= L ->
  Forall (fun walk => List.length walk = L) ws ->
  exists ts blocks,
    targets_of ws = Ok ts /\
    pair_list ts ws = List.concat blocks /\
    Forall2 (fun walk block =>
               List.length block = L - 1 /\
               forall i, 1 <= i < L ->
                 exists t c, nth_error walk 0 = Some t /\
                             nth_error walk i = Some c /\
                             nth_error block (i - 1) = Some (t, c))
            ws blocks /\
    List.length (pair_list ts ws) = List.length ws * (L - 1) /\
    forall self batch_size w l w',
      run_body self batch_size w = (Ok l, w') -> walks l = ws ->
      targets l = ts /\ positive_pairs l = List.concat blocks.
Proof.
  intros HL Hall.
  destruct (pair_list_blocks HL Hall) as (ts & blocks & Ht & Hp & Hb & Hn).
  exists ts, blocks.
  split; [assumption|]. split; [assumption|]. split; [assumption|].
  split; [assumption|].
  intros self batch_size w l w' Hrun Hws.
  apply run_body_steps in Hrun. destruct Hrun as (b & w1 & w2 & _ & Hsteps).
  destruct Hsteps as [_ _ _ _ Hts Hps _ _ _ _ _ _ _].
  assert (Heq : targets l = ts) by congruence.
  split; [exact Heq|]. rewrite Hps, <- Hp. congruence.
Qed.

End Facts.

(** ** Arrays: columns, chunks and indexing *)

Lemma column0_ok {A} (rows : list (A * A)) (col : list A) :
  column0 rows = Ok col -> rows <> [] /\ col = map fst rows.
Proof.
  unfold column0. destruct rows as [|r rs]; simpl; [discriminate|].
  intros H. injection H as <-. split; [discriminate|reflexivity].
Qed.

Lemma column_stack_ok {A} (col samples : list A) (rows : list (A * A)) :
  column_stack col samples = Ok rows ->
  List.length col = List.length samples /\ rows = combine col samples.
Proof.
  unfold column_stack. destruct (Nat.eqb_spec (List.length col) (List.length samples)).
  - intros H. injection H as <-. auto.
  - discriminate.
Qed.

Lemma firstn_plus {A} (n m : nat) (l : list A) :
  firstn (n + m) l = firstn n l ++ firstn m (skipn n l).
Proof.
  revert l; induction n as [|n IH]; intros [|x l]; simpl; try reflexivity.
  - now rewrite firstn_nil.
  - now rewrite IH.
Qed.

Lemma slice_chunk {A} (l : list A) (i b : nat) :
  slice l i (i + b) = firstn b (skipn i l).
Proof. unfold slice. now replace (i + b - i) with b by lia. Qed.

Lemma batch_indices_of_eq {A} (l : list A) (b : nat) :
  map (fun i => slice l i (i + b)) (py_range (List.length l) b)
  = map (fun k => firstn b (skipn (k * b) l))
        (seq 0 ((List.length l + b - 1) / b)).
Proof.
  unfold py_range. rewrite map_map. apply map_ext. intros k. apply slice_chunk.
Qed.

Lemma concat_chunks {A} (l : list A) (b m : nat) :
  List.concat (map (fun k => firstn b (skipn (k * b) l)) (seq 0 m)) = firstn (m * b) l.
Proof.
  induction m as [|m IH]; [reflexivity|].
  rewrite seq_S, map_app, concat_app, IH. simpl.
  rewrite app_nil_r. replace (b + m * b) with (m * b + b) by lia.
  now rewrite firstn_plus.
Qed.

Lemma ceil_div_covers (n b : nat) : 0 < b -> n <= (n + b - 1) / b * b.
Proof.
  intros Hb.
  pose proof (Nat.div_mod_eq (n + b - 1) b) as Hdm.
  pose proof (Nat.mod_upper_bound (n + b - 1) b) as Hlt.
  nia.
Qed.

Lemma ceil_div_tight (n b k : nat) : 0 < b -> k < (n + b - 1) / b -> k * b < n.
Proof.
  intros Hb Hk.
  pose proof (Nat.div_mod_eq (n + b - 1) b) as Hdm.
  pose proof (Nat.mod_upper_bound (n + b - 1) b) as Hlt.
  nia.
Qed.

Lemma concat_batch_indices (indices : list nat) (b : nat) :
  0 < b -> List.concat (batch_indices_of indices b) = indices.
Proof.
  intros Hb. unfold batch_indices_of.
  rewrite batch_indices_of_eq, concat_chunks.
  apply firstn_all2. now apply ceil_div_covers.
Qed.

Lemma batch_indices_length (indices : list nat) (b : nat) :
  List.length (batch_indices_of indices b) = (List.length indices + b - 1) / b.
Proof.
  unfold batch_indices_of. now rewrite batch_indices_of_eq, length_map, length_seq.
Qed.

Lemma batch_indices_nth (indices : list nat) (b k : nat) (chunk : list nat) :
  0 < b ->
  nth_error (batch_indices_of indices b) k = Some chunk ->
  chunk = firstn b (skipn (k * b) indices) /\
  0 < List.length chunk <= b /\
  (S k < List.length (batch_indices_of indices b) -> List.length chunk = b).
Proof.
  intros Hb Hk.
  assert (Hlt : k < (List.length indices + b - 1) / b).
  { rewrite <- batch_indices_length. apply nth_error_Some. congruence. }
  rewrite batch_indices_length.
  unfold batch_indices_of in Hk. rewrite batch_indices_of_eq in Hk.
  rewrite nth_error_map, nth_error_seq in Hk.
  destruct (Nat.ltb_spec k ((List.length indices + b - 1) / b)); [|lia].
  simpl in Hk. injection Hk as <-.
  split; [reflexivity|].
  rewrite length_firstn, length_skipn.
  pose proof (ceil_div_tight (List.length indices) Hb Hlt) as Htight.
  split; [lia|].
  intros Hnext.
  pose proof (@ceil_div_tight (List.length indices) b (S k) Hb Hnext) as Hn.
  simpl in Hn. lia.
Qed.

Lemma take_rows_ok {A} (a : list A) (idx : list nat) (rows : list A) :
  take_rows a idx = Ok rows <-> Forall2 (fun i x => nth_error a i = Some x) idx rows.
Proof.
  unfold take_rows. rewrite rmapM_ok_Forall2.
  split; intros H; induction H as [|i x idxs xs Hix _ IH]; constructor; try assumption.
  - destruct (nth_error a i); congruence.
  - now rewrite Hix.
Qed.

Lemma Forall2_nth_error {A B} (R : A -> B -> Prop) (l : list A) (m : list B)
    (n : nat) (x : A) (y : B) :
  Forall2 R l m -> nth_error l n = Some x -> nth_error m n = Some y -> R x y.
Proof.
  intros H. revert n. induction H as [|x0 y0 l m Hxy _ IH]; intros [|n]; simpl;
    try discriminate.
  - intros Hx Hy. injection Hx as <-. injection Hy as <-. assumption.
  - apply IH.
Qed.

Lemma indexed_by_seq {A} (a xs : list A) :
  Forall2 (fun i x => nth_error a i = Some x) (seq 0 (List.length a)) xs -> xs = a.
Proof.
  intros H. apply nth_error_ext. intros n.
  pose proof (Forall2_length H) as Hlen. rewrite length_seq in Hlen.
  destruct (Nat.lt_ge_cases n (List.length a)) as [Hn|Hn].
  - assert (Hi : nth_error (seq 0 (List.length a)) n = Some n).
    { rewrite nth_error_seq. destruct (Nat.ltb_spec n (List.length a)); [reflexivity|lia]. }
    destruct (nth_error xs n) as [x|] eqn:Hx.
    + symmetry. exact (@Forall2_nth_error _ _ _ _ _ _ _ _ H Hi Hx).
    + apply nth_error_None in Hx. lia.
  - transitivity (@None A); [|symmetry]; apply nth_error_None; lia.
Qed.

Lemma indexed_by_permutation {A} (a xs : list A) (idx : list nat) :
  Permutation idx (seq 0 (List.length a)) ->
  Forall2 (fun i x => nth_error a i = Some x) idx xs ->
  Permutation xs a.
Proof.
  intros Hperm Hidx.
  destruct (Permutation_Forall2 Hperm Hidx) as (xs' & Hxs & Hseq).
  apply indexed_by_seq in Hseq. now subst.
Qed.

Lemma nth_error_combine_Some {A B} (a : list A) (b : list B) (i : nat) (x : A) (y : B) :
  nth_error a i = Some x -> nth_error b i = Some y ->
  nth_error (combine a b) i = Some (x, y).
Proof.
  revert b i; induction a as [|a0 a IH]; intros [|b0 b] [|i]; simpl; try discriminate.
  - intros H1 H2. now injection H1 as ->; injection H2 as ->.
  - apply IH.
Qed.

Lemma Forall2_combine_indexed {A B} (a : list A) (b : list B) (idx : list nat)
    (xs : list A) (ys : list B) :
  Forall2 (fun i x => nth_error a i = Some x) idx xs ->
  Forall2 (fun i y => nth_error b i = Some y) idx ys ->
  Forall2 (fun i xy => nth_error (combine a b) i = Some xy) idx (combine xs ys).
Proof.
  intros Hx. revert ys. induction Hx as [|i x idxs xs Hix _ IH]; intros ys Hy.
  - constructor.
  - inversion Hy as [|? y ? ys' Hiy Hys]; subst. simpl. constructor.
    + now apply nth_error_combine_Some.
    + now apply IH.
Qed.

Lemma Forall2_concat {A B} (R : A -> B -> Prop) (ls : list (list A)) (ms : list (list B)) :
  Forall2 (Forall2 R) ls ms -> Forall2 R (List.concat ls) (List.concat ms).
Proof.
  induction 1; simpl; [constructor|]. now apply Forall2_app.
Qed.

Lemma Forall2_map_r {A B C} (R : A -> C -> Prop) (f : B -> C) (l : list A) (m : list B) :
  Forall2 (fun x y => R x (f y)) l m -> Forall2 R l (map f m).
Proof. induction 1; simpl; constructor; assumption. Qed.

Lemma Forall2_impl {A B} (R S : A -> B -> Prop) (l : list A) (m : list B) :
  (forall x y, R x y -> S x y) -> Forall2 R l m -> Forall2 S l m.
Proof. intros HRS. induction 1; constructor; auto. Qed.

Lemma py_sum_app (xs ys : list Z) : py_sum (xs ++ ys) = (py_sum xs + py_sum ys)%Z.
Proof. induction xs as [|x xs IH]; simpl; [reflexivity|]. rewrite IH. lia. Qed.

Lemma py_sum_repeat (x : Z) (n : nat) : py_sum (repeat x n) = (Z.of_nat n * x)%Z.
Proof. induction n as [|n IH]; [reflexivity|]. simpl repeat. simpl py_sum. rewrite IH. lia. Qed.

Lemma py_sum_permutation (xs ys : list Z) : Permutation xs ys -> py_sum xs = py_sum ys.
Proof. induction 1; simpl; lia. Qed.

Lemma np_repeat_1_0_length (n : nat) : List.length (np_repeat_1_0 n) = n + n.
Proof. unfold np_repeat_1_0. now rewrite length_app, !repeat_length. Qed.

Lemma np_repeat_1_0_nth (n i : nat) :
  i < n + n ->
  (nth_error (np_repeat_1_0 n) i = Some 1%Z <-> i < n) /\
  (nth_error (np_repeat_1_0 n) i = Some 0%Z <-> n <= i).
Proof.
  intros Hi. unfold np_repeat_1_0. rewrite nth_error_app, repeat_length.
  destruct (Nat.ltb_spec i n) as [Hlt|Hge].
  - rewrite nth_error_repeat by assumption. split; split; intros H; try lia; try discriminate.
    reflexivity.
  - rewrite nth_error_repeat by lia. split; split; intros H; try lia; try discriminate.
    reflexivity.
Qed.

(** ** Batches *)

Section Batches.
Context {E : Externals}.

Lemma batch_of_ok (pairs : list (NodeId * NodeId)) (labels : list Z)
    (chunk : list nat) (batch : Batch) :
  batch_of pairs labels chunk = Ok batch ->
  Forall2 (indexed pairs) chunk (fst batch) /\ Forall2 (indexed labels) chunk (snd batch).
Proof.
  unfold batch_of.
  destruct (take_rows pairs chunk) as [ps|e] eqn:Hps; simpl; [|discriminate].
  destruct (take_rows labels chunk) as [ls|e] eqn:Hls; simpl; [|discriminate].
  intros H. injection H as <-. simpl.
  split; now apply take_rows_ok.
Qed.

Lemma batches_indexed (pairs : list (NodeId * NodeId)) (labels : list Z)
    (chunks : list (list nat)) (bs : list Batch) :
  rmapM (batch_of pairs labels) chunks = Ok bs ->
  Forall2 (fun chunk batch => Forall2 (indexed pairs) chunk (fst batch) /\
                              Forall2 (indexed labels) chunk (snd batch))
          chunks bs.
Proof.
  intros H. apply rmapM_ok_Forall2 in H.
  eapply Forall2_impl; [|exact H]. intros chunk batch. apply batch_of_ok.
Qed.

Lemma batches_cover (pairs : list (NodeId * NodeId)) (labels : list Z)
    (idx : list nat) (chunks : list (list nat)) (bs : list Batch) :
  List.length labels = List.length pairs ->
  Permutation idx (seq 0 (List.length pairs)) ->
  List.concat chunks = idx ->
  rmapM (batch_of pairs labels) chunks = Ok bs ->
  Permutation (List.concat (map fst bs)) pairs /\
  Permutation (List.concat (map snd bs)) labels /\
  Permutation (labelled_rows bs) (combine pairs labels).
Proof.
  intros Hlen Hperm Hcat Hbs. apply batches_indexed in Hbs.
  assert (H1 : Forall2 (indexed pairs) idx (List.concat (map fst bs))).
  { rewrite <- Hcat. apply Forall2_concat. apply Forall2_map_r.
    eapply Forall2_impl; [|exact Hbs]. now intros ? ? [? _]. }
  assert (H2 : Forall2 (indexed labels) idx (List.concat (map snd bs))).
  { rewrite <- Hcat. apply Forall2_concat. apply Forall2_map_r.
    eapply Forall2_impl; [|exact Hbs]. now intros ? ? [_ ?]. }
  assert (H3 : Forall2 (indexed (combine pairs labels)) idx (labelled_rows bs)).
  { rewrite <- Hcat. unfold labelled_rows. apply Forall2_concat. apply Forall2_map_r.
    eapply Forall2_impl; [|exact Hbs]. intros ? ? [? ?].
    now apply Forall2_combine_indexed. }
  repeat split.
  - eapply indexed_by_permutation; eassumption.
  - eapply indexed_by_permutation; [|eassumption]. now rewrite Hlen.
  - eapply indexed_by_permutation; [|eassumption].
    rewrite length_combine, Hlen, Nat.min_id. assumption.
Qed.

Lemma run_steps_lengths (self : UnsupervisedSampler) (b : Z) (w : World)
    (l : run_locals) (w1 w2 w' : World) :
  run_steps self b w l w1 w2 w' ->
  positive_pairs l <> [] /\
  List.length (negative_samples l) = List.length (positive_pairs l) /\
  negative_pairs l = combine (map fst (positive_pairs l)) (negative_samples l) /\
  List.length (negative_pairs l) = List.length (positive_pairs l) /\
  List.length (pairs l) = List.length (positive_pairs l) + List.length (positive_pairs l) /\
  List.length (labels l) = List.length (pairs l).
Proof.
  intros [_ _ _ _ _ _ _ (col & Hcol & Hstack) Hps Hl _ _ _].
  apply column0_ok in Hcol. destruct Hcol as [Hne ->].
  apply column_stack_ok in Hstack. destruct Hstack as [Hlen Hnp].
  rewrite length_map in Hlen.
  assert (Hn : List.length (negative_pairs l) = List.length (positive_pairs l)).
  { rewrite Hnp, length_combine, length_map, <- Hlen. apply Nat.min_id. }
  repeat split; try assumption; try congruence.
  - rewrite Hps, length_app. lia.
  - rewrite Hl, np_repeat_1_0_length, Hps, length_app. lia.
Qed.

Lemma rs_permutation_ok (h : handle) (n : nat) (w w' : World) (idx : list nat) :
  rs_permutation h n w = (Ok idx, w') ->
  np_permutation (np_read h w) n = (idx, np_read h w').
Proof.
  unfold rs_permutation. destruct (np_permutation (np_read h w) n) as [idx' st].
  intros H. injection H as <- <-. f_equal.
  destruct h; simpl; [reflexivity|]. unfold upd. now rewrite Nat.eqb_refl.
Qed.

Lemma rs_choice_ok (h : handle) (a : list NodeId) (n : nat) (p : list npfloat)
    (w w' : World) (r : result (list NodeId)) :
  rs_choice h a n p w = (r, w') ->
  np_choice (np_read h w) a n p = (r, np_read h w').
Proof.
  unfold rs_choice. destruct (np_choice (np_read h w) a n p) as [r' st].
  intros H. injection H as <- <-. f_equal.
  destruct h; simpl; [reflexivity|]. unfold upd. now rewrite Nat.eqb_refl.
Qed.

End Batches.

(** ** Negative pairs, labels and batches of a call *)

Section RunFacts.
Context {E : Externals}.

(** C2: in a call of [run] that returns, the negative samples are the
    result of one call of [choice] on the instance's stream, in the state
    the walks left it, with all the nodes of the graph as population,
    [len(positive_pairs)] as size and the sampling distribution as [p];
    there are as many of them, and as many negative pairs, as positive
    pairs; and negative pair [i] is the target of positive pair [i] with
    negative sample [i]. *)
Theorem negative_pairs_reuse_targets (self : UnsupervisedSampler) (batch_size : pyval)
    (w : World) (l : run_locals) (w' : World) :
  run_body self batch_size w = (Ok l, w') ->
  (exists w1 st',
     run_walks self w = (Ok (walks l), w1) /\
     np_choice (np_read (self_np_random self) w1)
               (g_nodes (graphs w (self_graph self)))
               (List.length (positive_pairs l))
               (sampling_distribution_norm_of (graphs w (self_graph self)))
     = (Ok (negative_samples l), st')) /\
  List.length (negative_samples l) = List.length (positive_pairs l) /\
  List.length (negative_pairs l) = List.length (positive_pairs l) /\
  forall i, i < List.length (positive_pairs l) ->
    exists t c s, nth_error (positive_pairs l) i = Some (t, c) /\
                  nth_error (negative_samples l) i = Some s /\
                  nth_error (negative_pairs l) i = Some (t, s).
Proof.
  intros Hrun. apply run_body_steps in Hrun.
  destruct Hrun as (b & w1 & w2 & -> & Hsteps).
  pose proof (run_steps_lengths Hsteps) as (_ & Hns & Hnp & Hlen & _ & _).
  destruct Hsteps as [_ Hn Hd Hw _ _ Hc _ _ _ _ _ _].
  split; [|split; [assumption|split; [assumption|]]].
  - apply rs_choice_ok in Hc. rewrite Hn, Hd in Hc. eauto.
  - intros i Hi.
    destruct (nth_error (positive_pairs l) i) as [[t c]|] eqn:Hp;
      [|apply nth_error_None in Hp; lia].
    destruct (nth_error (negative_samples l) i) as [s|] eqn:Hs;
      [|apply nth_error_None in Hs; lia].
    exists t, c, s. repeat split.
    rewrite Hnp. apply nth_error_combine_Some; [|assumption].
    rewrite nth_error_map, Hp. reflexivity.
Qed.

(** C3: in a call of [run] that returns, [pairs] is the positive pairs
    followed by the negative pairs, [labels] is as many 1s as there are
    positive pairs followed by as many 0s and has the length of [pairs], so
    label [i] is 1 exactly when [i < len(positive_pairs)] and 0 otherwise;
    the labels add up to half their number, in the array and over the
    batches returned. *)
Theorem labels_ones_then_zeros {EOk : ExternalsOk E} (self : UnsupervisedSampler)
    (batch_size : pyval) (w : World) (l : run_locals) (w' : World) :
  run_body self batch_size w = (Ok l, w') ->
  pairs l = positive_pairs l ++ negative_pairs l /\
  labels l = repeat 1%Z (List.length (positive_pairs l))
             ++ repeat 0%Z (List.length (negative_pairs l)) /\
  List.length (labels l) = List.length (pairs l) /\
  (forall i, i < List.length (labels l) ->
     (nth_error (labels l) i = Some 1%Z <-> i < List.length (positive_pairs l)) /\
     (nth_error (labels l) i = Some 0%Z <-> List.length (positive_pairs l) <= i)) /\
  (2 * py_sum (labels l) = Z.of_nat (List.length (labels l)))%Z /\
  (py_sum (labels l) = Z.of_nat (List.length (labels l)) / 2)%Z /\
  (py_sum (List.concat (map snd (batches l))) = Z.of_nat (List.length (labels l)) / 2)%Z.
Proof.
  intros Hrun. apply run_body_steps in Hrun.
  destruct Hrun as (b & w1 & w2 & -> & Hsteps).
  pose proof (run_steps_lengths Hsteps) as (_ & _ & _ & Hlen & Hpl & Hll).
  pose proof Hsteps as [[Hb _] _ _ _ _ _ _ _ Hps Hl Hi Hbi Hbs].
  assert (Hsum : (2 * py_sum (labels l) = Z.of_nat (List.length (labels l)))%Z).
  { rewrite Hll, Hpl, Hl. unfold np_repeat_1_0.
    rewrite py_sum_app, !py_sum_repeat. lia. }
  assert (Hhalf : (py_sum (labels l) = Z.of_nat (List.length (labels l)) / 2)%Z).
  { rewrite <- Hsum. rewrite Z.mul_comm, Z.div_mul; lia. }
  repeat split; try assumption.
  - rewrite Hl, Hlen. reflexivity.
  - rewrite Hl. apply np_repeat_1_0_nth. rewrite <- Hpl, <- Hll. assumption.
  - rewrite Hl. apply np_repeat_1_0_nth. rewrite <- Hpl, <- Hll. assumption.
  - rewrite Hl. apply np_repeat_1_0_nth. rewrite <- Hpl, <- Hll. assumption.
  - rewrite Hl. apply np_repeat_1_0_nth. rewrite <- Hpl, <- Hll. assumption.
  - rewrite <- Hhalf. apply py_sum_permutation.
    apply rs_permutation_ok in Hi.
    pose proof (np_permutation_perm (np_read (self_np_random self) w2)
                                    (List.length (pairs l))) as Hperm.
    rewrite Hi in Hperm. simpl in Hperm.
    assert (Hcat : List.concat (batch_indices l) = indices l).
    { rewrite Hbi. apply concat_batch_indices. lia. }
    exact (proj1 (proj2 (@batches_cover _ _ _ _ _ _ Hll Hperm Hcat Hbs))).
Qed.

(** C4: in a call of [run] that returns, [indices] is the result of one
    call of [permutation] on the instance's stream and is a permutation of
    the indices of [pairs], without duplicates; the chunks are consecutive
    slices of [indices] of [batch_size] indices each, the last one possibly
    shorter and none empty, and together they are [indices]; every batch
    has as many pairs as labels, namely the rows and labels at the indices
    of its chunk in the order of the chunk; and the pairs of all batches,
    the labels of all batches and the pairs with their labels reproduce the
    whole pool as a multiset. *)
Theorem batches_partition_permutation {EOk : ExternalsOk E} (self : UnsupervisedSampler)
    (batch_size : pyval) (w : World) (l : run_locals) (w' : World) :
  run_body self batch_size w = (Ok l, w') ->
  exists b : nat,
    batch_size = PyInt (Z.of_nat b) /\ 0 < b /\
    (exists st, np_permutation st (List.length (pairs l))
                = (indices l, np_read (self_np_random self) w')) /\
    Permutation (indices l) (seq 0 (List.length (pairs l))) /\
    NoDup (indices l) /\
    List.concat (batch_indices l) = indices l /\
    List.length (batch_indices l) = (List.length (indices l) + b - 1) / b /\
    (forall k chunk, nth_error (batch_indices l) k = Some chunk ->
       chunk = firstn b (skipn (k * b) (indices l)) /\
       0 < List.length chunk <= b /\
       (S k < List.length (batch_indices l) -> List.length chunk = b)) /\
    Forall2 (fun chunk batch =>
               Forall2 (indexed (pairs l)) chunk (fst batch) /\
               Forall2 (indexed (labels l)) chunk (snd batch))
            (batch_indices l) (batches l) /\
    Forall (fun batch : Batch => List.length (fst batch) = List.length (snd batch))
           (batches l) /\
    Permutation (List.concat (map fst (batches l))) (pairs l) /\
    Permutation (List.concat (map snd (batches l))) (labels l) /\
    Permutation (labelled_rows (batches l)) (combine (pairs l) (labels l)).
Proof.
  intros Hrun. apply run_body_steps in Hrun.
  destruct Hrun as (z & w1 & w2 & -> & Hsteps).
  pose proof (run_steps_lengths Hsteps) as (_ & _ & _ & _ & _ & Hll).
  destruct Hsteps as [[Hb _] _ _ _ _ _ _ _ _ _ Hi Hbi Hbs].
  exists (Z.to_nat z).
  assert (Hpos : 0 < Z.to_nat z) by lia.
  apply rs_permutation_ok in Hi.
  pose proof (np_permutation_perm (np_read (self_np_random self) w2)
                                  (List.length (pairs l))) as Hperm.
  rewrite Hi in Hperm. simpl in Hperm.
  assert (Hcat : List.concat (batch_indices l) = indices l).
  { rewrite Hbi. now apply concat_batch_indices. }
  pose proof (@batches_indexed _ _ _ _ _ Hbs) as Hidx.
  destruct (@batches_cover _ _ _ _ _ _ Hll Hperm Hcat Hbs) as (Hp1 & Hp2 & Hp3).
  split; [now rewrite Z2Nat.id by lia|].
  split; [assumption|].
  split; [eauto|].
  split; [assumption|].
  split.
  { eapply Permutation_NoDup; [symmetry; exact Hperm|apply seq_NoDup]. }
  split; [assumption|].
  split; [rewrite Hbi; apply batch_indices_length|].
  split.
  { intros k chunk Hk. rewrite Hbi in *. now apply batch_indices_nth. }
  split; [assumption|].
  split; [|auto].
  clear -Hidx. induction Hidx as [|chunk batch cs bs [H1 H2] _ IH]; constructor.
  - rewrite <- (Forall2_length H1), <- (Forall2_length H2). reflexivity.
  - assumption.
Qed.

End RunFacts.

(** ** The sampling distribution *)

Local Open Scope R_scope.

Lemma pow075_nonneg (d : nat) : 0 <= pow075 d.
Proof.
  destruct d as [|d]; simpl; [lra|].
  left. unfold Rpower. apply exp_pos.
Qed.

Lemma pow075_pos (d : nat) : d <> O -> 0 < pow075 d.
Proof.
  destruct d as [|d]; [congruence|]. intros _. simpl.
  unfold Rpower. apply exp_pos.
Qed.

Lemma np_sum_nonneg (xs : list R) : Forall (fun x => 0 <= x) xs -> 0 <= np_sum xs.
Proof. induction 1; simpl; lra. Qed.

Lemma np_sum_pos (xs : list R) (x : R) :
  Forall (fun x => 0 <= x) xs -> In x xs -> 0 < x -> 0 < np_sum xs.
Proof.
  induction 1 as [|y ys Hy Hys IH]; simpl; [tauto|].
  pose proof (np_sum_nonneg Hys).
  intros [->|Hin] Hx; [lra|]. specialize (IH Hin Hx). lra.
Qed.

Lemma np_sum_zeros (xs : list R) : Forall (fun x => x = 0) xs -> np_sum xs = 0.
Proof. induction 1; simpl; lra. Qed.

Lemma np_sum_scaled (xs : list R) (s : R) :
  np_sum (map (fun x => x / s) xs) = np_sum xs / s.
Proof.
  induction xs as [|x xs IH]; simpl.
  - unfold Rdiv. ring.
  - rewrite IH. unfold Rdiv. ring.
Qed.

Lemma true_divide_finite (x s : R) : s <> 0 -> true_divide x s = Fin (x / s).
Proof. intros Hs. unfold true_divide. destruct (Req_dec_T s 0); [contradiction|reflexivity]. Qed.

Lemma true_divide_0_0 : true_divide 0 0 = NaN.
Proof.
  unfold true_divide. destruct (Req_dec_T 0 0) as [_|H]; [|contradiction H; reflexivity].
  reflexivity.
Qed.

Lemma atol_lt_1 : atol < 1.
Proof.
  unfold atol.
  assert (H : 1 < 2 ^ 26) by (apply Rlt_pow_R1; [lra|lia]).
  apply Rmult_lt_reg_l with (2 ^ 26); [lra|].
  rewrite Rinv_r by lra. lra.
Qed.

Lemma atol_nonneg : 0 <= atol.
Proof. unfold atol. left. apply Rinv_0_lt_compat. apply pow_lt. lra. Qed.

Lemma valid_probabilities_b_spec (p : list npfloat) :
  valid_probabilities_b p = true <-> valid_probabilities p.
Proof.
  unfold valid_probabilities_b, valid_probabilities.
  rewrite andb_true_iff, forallb_forall, Forall_forall.
  split; intros [Hall Hsum]; split.
  - intros x Hx. specialize (Hall x Hx). destruct x as [r| | |]; try discriminate.
    simpl in Hall. destruct (Rle_dec 0 r); [|discriminate]. eauto.
  - destruct (Rle_dec _ atol); [assumption|discriminate].
  - intros x Hx. destruct (Hall x Hx) as (r & -> & Hr). simpl.
    destruct (Rle_dec 0 r); [reflexivity|contradiction].
  - destruct (Rle_dec _ atol); [reflexivity|contradiction].
Qed.

Section Distribution.
Context {E : Externals}.

Lemma sampling_distribution_nonneg (G : Graph) :
  Forall (fun x => 0 <= x) (sampling_distribution_of G).
Proof.
  unfold sampling_distribution_of. apply Forall_forall. intros x Hx.
  apply in_map_iff in Hx. destruct Hx as (n & <- & _). apply pow075_nonneg.
Qed.

Lemma sampling_distribution_sum_pos (G : Graph) :
  (exists n, In n (g_nodes G) /\ node_degrees G n <> O) ->
  0 < np_sum (sampling_distribution_of G).
Proof.
  intros (n & Hin & Hd).
  apply np_sum_pos with (x := pow075 (node_degrees G n)).
  - apply sampling_distribution_nonneg.
  - unfold sampling_distribution_of.
    apply (in_map (fun n => pow075 (node_degrees G n))). exact Hin.
  - now apply pow075_pos.
Qed.

Lemma sampling_distribution_norm_finite (G : Graph) :
  (exists n, In n (g_nodes G) /\ node_degrees G n <> O) ->
  sampling_distribution_norm_of G
  = map (fun x => Fin (x / np_sum (sampling_distribution_of G)))
        (sampling_distribution_of G).
Proof.
  intros Hex. apply sampling_distribution_sum_pos in Hex.
  unfold sampling_distribution_norm_of. apply map_ext.
  intros x. apply true_divide_finite. lra.
Qed.

Lemma sampling_distribution_norm_valid (G : Graph) :
  (exists n, In n (g_nodes G) /\ node_degrees G n <> O) ->
  Forall (fun x => exists r, x = Fin r /\ 0 <= r) (sampling_distribution_norm_of G) /\
  np_sum (map prob_value (sampling_distribution_norm_of G)) = 1.
Proof.
  intros Hex. rewrite (sampling_distribution_norm_finite G Hex).
  pose proof (sampling_distribution_sum_pos G Hex) as Hpos.
  split.
  - apply Forall_forall. intros x Hx. apply in_map_iff in Hx.
    destruct Hx as (y & <- & Hy). exists (y / np_sum (sampling_distribution_of G)).
    split; [reflexivity|].
    pose proof (sampling_distribution_nonneg G) as Hnn.
    rewrite Forall_forall in Hnn. specialize (Hnn y Hy).
    apply Rmult_le_pos; [assumption|]. left. now apply Rinv_0_lt_compat.
  - rewrite map_map. simpl. rewrite np_sum_scaled. field. lra.
Qed.

Lemma sampling_distribution_norm_probabilities (G : Graph) :
  (exists n, In n (g_nodes G) /\ node_degrees G n <> O) ->
  valid_probabilities (sampling_distribution_norm_of G).
Proof.
  intros Hex. destruct (sampling_distribution_norm_valid G Hex) as [Hall Hsum].
  split; [assumption|]. rewrite Hsum.
  replace (1 - 1) with 0 by ring. rewrite Rabs_R0. apply atol_nonneg.
Qed.

Lemma zero_degrees_nan (G : Graph) :
  (forall n, In n (g_nodes G) -> node_degrees G n = O) ->
  Forall is_nan (sampling_distribution_norm_of G).
Proof.
  intros Hzero.
  assert (Hall : Forall (fun x => x = 0) (sampling_distribution_of G)).
  { unfold sampling_distribution_of. apply Forall_forall. intros x Hx.
    apply in_map_iff in Hx. destruct Hx as (n & <- & Hn).
    now rewrite (Hzero n Hn). }
  unfold sampling_distribution_norm_of. rewrite (np_sum_zeros Hall).
  apply Forall_forall. intros x Hx. apply in_map_iff in Hx.
  destruct Hx as (y & <- & Hy). rewrite Forall_forall in Hall.
  rewrite (Hall y Hy). apply true_divide_0_0.
Qed.

Lemma zero_degrees_invalid (G : Graph) :
  (forall n, In n (g_nodes G) -> node_degrees G n = O) ->
  ~ valid_probabilities (sampling_distribution_norm_of G).
Proof.
  intros Hzero [Hall Hsum]. apply zero_degrees_nan in Hzero.
  destruct (sampling_distribution_norm_of G) as [|x p].
  - simpl in Hsum. pose proof atol_lt_1.
    replace (0 - 1) with (- (1)) in Hsum by ring.
    rewrite Rabs_Ropp, Rabs_R1 in Hsum. lra.
  - inversion Hzero as [|? ? Hx _]; subst. inversion Hall as [|? ? (r & Hr & _) _]; subst.
    unfold is_nan in Hx. congruence.
Qed.

End Distribution.

Local Close Scope R_scope.

(** ** The instance of the collaborators keeps their contract *)

Module ToyFacts.
Import Toy.

Lemma permutation_perm (st n : nat) : Permutation (fst (permutation st n)) (seq 0 n).
Proof.
  unfold permutation. simpl.
  etransitivity; [apply Permutation_app_comm|]. now rewrite firstn_skipn.
Qed.

Lemma choice_checks_p (st : nat) (a : list string) (n : nat) (p : list npfloat) :
  ~ valid_probabilities p -> exists e, fst (choice st a n p) = Raise e.
Proof.
  intros Hp. unfold choice.
  destruct (valid_probabilities_b p) eqn:Hb.
  - apply valid_probabilities_b_spec in Hb. contradiction.
  - simpl. eauto.
Qed.

#[export] Instance externals_ok : ExternalsOk externals.
Proof.
  constructor.
  - exact permutation_perm.
  - exact choice_checks_p.
  - intros k G st len n b walks st' H. simpl in H. unfold walks_from in H.
    simpl in H. now injection H as <- _.
Qed.

Lemma G4_has_an_edge : exists n, In n (g_nodes G4) /\ node_degrees G4 n <> O.
Proof. exists "A"%string. split; [left; reflexivity|discriminate]. Qed.

Lemma init_sampler :
  __init__ (GraphRef 0) None 2 1 (Some 1%Z) WalkerNone [] world = (Ok sampler, world1).
Proof. reflexivity. Qed.

Lemma run_sampler_steps : run_steps sampler 4 world1 locals4 world_walks world_choice world2.
Proof.
  constructor; try reflexivity.
  - split; [lia|reflexivity].
  - unfold rs_choice.
    change (np_choice (np_read (self_np_random sampler) world_walks) (all_nodes locals4)
                      (List.length (positive_pairs locals4))
                      (sampling_distribution_norm locals4))
      with (choice 1 ["A"; "B"; "C"; "D"]%string 4 (sampling_distribution_norm_of G4)).
    unfold choice.
    rewrite (proj2 (valid_probabilities_b_spec _)
                   (@sampling_distribution_norm_probabilities externals G4 G4_has_an_edge)).
    reflexivity.
  - exists ["A"; "B"; "C"; "D"]%string. split; reflexivity.
Qed.

Lemma run_sampler : run_body sampler (PyInt 4) world1 = (Ok locals4, world2).
Proof. exact (run_steps_run_body run_sampler_steps). Qed.

End ToyFacts.

(** ** The call [sampler.run(4)] on the graph A, B, C, D *)

Lemma positive_pairs_of_walks_witness :
  2 <= 2 /\
  Forall (fun walk => List.length walk = 2) (walks Toy.locals4) /\
  exists ts blocks,
    targets_of (walks Toy.locals4) = Ok ts /\
    pair_list ts (walks Toy.locals4) = List.concat blocks /\
    Forall2 (fun walk block =>
               List.length block = 2 - 1 /\
               forall i, 1 <= i < 2 ->
                 exists t c, nth_error walk 0 = Some t /\
                             nth_error walk i = Some c /\
                             nth_error block (i - 1) = Some (t, c))
            (walks Toy.locals4) blocks /\
    List.length (pair_list ts (walks Toy.locals4))
    = List.length (walks Toy.locals4) * (2 - 1) /\
    forall self batch_size w l w',
      run_body self batch_size w = (Ok l, w') -> walks l = walks Toy.locals4 ->
      targets l = ts /\ positive_pairs l = List.concat blocks.
Proof.
  assert (HL : 2 <= 2) by lia.
  assert (Hall : Forall (fun walk => List.length walk = 2) (walks Toy.locals4)).
  { repeat constructor. }
  split; [exact HL|]. split; [exact Hall|].
  exact (@positive_pairs_of_walks Toy.externals 2 (walks Toy.locals4) HL Hall).
Defined.

Lemma negative_pairs_reuse_targets_witness :
  run_body Toy.sampler (PyInt 4) Toy.world1 = (Ok Toy.locals4, Toy.world2) /\
  (exists w1 st',
     run_walks Toy.sampler Toy.world1 = (Ok (walks Toy.locals4), w1) /\
     np_choice (np_read (self_np_random Toy.sampler) w1)
               (g_nodes (graphs Toy.world1 (self_graph Toy.sampler)))
               (List.length (positive_pairs Toy.locals4))
               (sampling_distribution_norm_of (graphs Toy.world1 (self_graph Toy.sampler)))
     = (Ok (negative_samples Toy.locals4), st')) /\
  List.length (negative_samples Toy.locals4) = List.length (positive_pairs Toy.locals4) /\
  List.length (negative_pairs Toy.locals4) = List.length (positive_pairs Toy.locals4) /\
  forall i, i < List.length (positive_pairs Toy.locals4) ->
    exists t c s, nth_error (positive_pairs Toy.locals4) i = Some (t, c) /\
                  nth_error (negative_samples Toy.locals4) i = Some s /\
                  nth_error (negative_pairs Toy.locals4) i = Some (t, s).
Proof.
  split; [exact ToyFacts.run_sampler|].
  exact (negative_pairs_reuse_targets Toy.sampler (PyInt 4) Toy.world1 ToyFacts.run_sampler).
Defined.

Lemma labels_ones_then_zeros_witness :
  run_body Toy.sampler (PyInt 4) Toy.world1 = (Ok Toy.locals4, Toy.world2) /\
  pairs Toy.locals4 = positive_pairs Toy.locals4 ++ negative_pairs Toy.locals4 /\
  labels Toy.locals4 = repeat 1%Z (List.length (positive_pairs Toy.locals4))
                       ++ repeat 0%Z (List.length (negative_pairs Toy.locals4)) /\
  List.length (labels Toy.locals4) = List.length (pairs Toy.locals4) /\
  (forall i, i < List.length (labels Toy.locals4) ->
     (nth_error (labels Toy.locals4) i = Some 1%Z
      <-> i < List.length (positive_pairs Toy.locals4)) /\
     (nth_error (labels Toy.locals4) i = Some 0%Z
      <-> List.length (positive_pairs Toy.locals4) <= i)) /\
  (2 * py_sum (labels Toy.locals4) = Z.of_nat (List.length (labels Toy.locals4)))%Z /\
  (py_sum (labels Toy.locals4) = Z.of_nat (List.length (labels Toy.locals4)) / 2)%Z /\
  (py_sum (List.concat (map snd (batches Toy.locals4)))
   = Z.of_nat (List.length (labels Toy.locals4)) / 2)%Z.
Proof.
  split; [exact ToyFacts.run_sampler|].
  exact (@labels_ones_then_zeros Toy.externals ToyFacts.externals_ok Toy.sampler (PyInt 4)
           Toy.world1 Toy.locals4 Toy.world2 ToyFacts.run_sampler).
Defined.

Lemma batches_partition_permutation_witness :
  run_body Toy.sampler (PyInt 4) Toy.world1 = (Ok Toy.locals4, Toy.world2) /\
  exists b : nat,
    PyInt 4 = PyInt (Z.of_nat b) /\ 0 < b /\
    (exists st, np_permutation st (List.length (pairs Toy.locals4))
                = (indices Toy.locals4, np_read (self_np_random Toy.sampler) Toy.world2)) /\
    Permutation (indices Toy.locals4) (seq 0 (List.length (pairs Toy.locals4))) /\
    NoDup (indices Toy.locals4) /\
    List.concat (batch_indices Toy.locals4) = indices Toy.locals4 /\
    List.length (batch_indices Toy.locals4)
    = (List.length (indices Toy.locals4) + b - 1) / b /\
    (forall k chunk, nth_error (batch_indices Toy.locals4) k = Some chunk ->
       chunk = firstn b (skipn (k * b) (indices Toy.locals4)) /\
       0 < List.length chunk <= b /\
       (S k < List.length (batch_indices Toy.locals4) -> List.length chunk = b)) /\
    Forall2 (fun chunk batch =>
               Forall2 (indexed (pairs Toy.locals4)) chunk (fst batch) /\
               Forall2 (indexed (labels Toy.locals4)) chunk (snd batch))
            (batch_indices Toy.locals4) (batches Toy.locals4) /\
    Forall (fun batch : Batch => List.length (fst batch) = List.length (snd batch))
           (batches Toy.locals4) /\
    Permutation (List.concat (map fst (batches Toy.locals4))) (pairs Toy.locals4) /\
    Permutation (List.concat (map snd (batches Toy.locals4))) (labels Toy.locals4) /\
    Permutation (labelled_rows (batches Toy.locals4))
                (combine (pairs Toy.locals4) (labels Toy.locals4)).
Proof.
  split; [exact ToyFacts.run_sampler|].
  exact (@batches_partition_permutation Toy.externals ToyFacts.externals_ok Toy.sampler
           (PyInt 4) Toy.world1 Toy.locals4 Toy.world2 ToyFacts.run_sampler).
Defined.

(** ** The graph without edges, and the batch size *)

Section RunErrors.
Context {E : Externals}.

(** C6: when every node of the graph has degree zero, every entry of the
    distribution is nan, and a call of [run] raises: whatever the batch
    size and the walks, it does not return. *)
Theorem zero_degrees_raise {EOk : ExternalsOk E} (self : UnsupervisedSampler)
    (batch_size : pyval) (w : World) :
  (forall n, In n (g_nodes (graphs w (self_graph self))) ->
             node_degrees (graphs w (self_graph self)) n = O) ->
  Forall is_nan (sampling_distribution_norm_of (graphs w (self_graph self))) /\
  exists e, fst (run self batch_size w) = Raise e.
Proof.
  intros Hzero. split; [now apply zero_degrees_nan|].
  apply zero_degrees_invalid in Hzero.
  unfold run, run_body, bind, lift.
  destruct (_check_parameter_values batch_size) as [[]|e]; [|simpl; eauto].
  destruct (run_walks self w) as [[ws|e] w1]; [|simpl; eauto].
  destruct (targets_of ws) as [ts|e]; [|simpl; eauto].
  unfold rs_choice.
  pose proof (np_choice_checks_p (np_read (self_np_random self) w1)
                (g_nodes (graphs w (self_graph self)))
                (List.length (pair_list ts ws)) Hzero) as (e & He).
  destruct (np_choice _ _ _ _) as [r st]. simpl in He. subst r. simpl. eauto.
Qed.

(** C7: [run] checks the batch size before anything else, so a refused
    batch size leaves the world as it was: [None] is a [ValueError], a
    value that is not of type [int] a [TypeError], an integer below 1 a
    [ValueError] and an odd positive integer a [ValueError] with a message
    of its own; the four exceptions are pairwise different; an even
    positive integer passes the check. *)
Theorem batch_size_is_checked_first (self : UnsupervisedSampler) (w : World) :
  run self PyNone w = (Raise (mk_exn ValueError msg_batch_size_missing), w) /\
  (forall b, run self (PyBool b) w = (Raise (mk_exn TypeError msg_batch_size_positive), w)) /\
  (forall m e, run self (PyFloat m e) w
               = (Raise (mk_exn TypeError msg_batch_size_positive), w)) /\
  (forall s, run self (PyStr s) w = (Raise (mk_exn TypeError msg_batch_size_positive), w)) /\
  (forall z, (z < 1)%Z ->
     run self (PyInt z) w = (Raise (mk_exn ValueError msg_batch_size_positive), w)) /\
  (forall z, (1 <= z)%Z -> (z mod 2 <> 0)%Z ->
     run self (PyInt z) w = (Raise (mk_exn ValueError msg_batch_size_even), w)) /\
  (forall z, (1 <= z)%Z -> (z mod 2 = 0)%Z ->
     _check_parameter_values (PyInt z) = Ok tt) /\
  mk_exn ValueError msg_batch_size_missing <> mk_exn TypeError msg_batch_size_positive /\
  mk_exn ValueError msg_batch_size_missing <> mk_exn ValueError msg_batch_size_positive /\
  mk_exn ValueError msg_batch_size_missing <> mk_exn ValueError msg_batch_size_even /\
  mk_exn TypeError msg_batch_size_positive <> mk_exn ValueError msg_batch_size_positive /\
  mk_exn TypeError msg_batch_size_positive <> mk_exn ValueError msg_batch_size_even /\
  mk_exn ValueError msg_batch_size_positive <> mk_exn ValueError msg_batch_size_even.
Proof.
  repeat split; try reflexivity; try discriminate.
  - intros z Hz. unfold run, run_body, bind, lift. simpl.
    destruct (Z.ltb_spec z 1); [reflexivity|lia].
  - intros z Hz Hodd. unfold run, run_body, bind, lift. simpl.
    destruct (Z.ltb_spec z 1); [lia|].
    destruct (Z.eqb_spec (z mod 2) 0); [contradiction|reflexivity].
  - intros z Hz Heven. apply check_parameter_values_ok. eauto.
Qed.

End RunErrors.

(** ** Two instances that see the same thing give the same batches *)

Section Agreement.
Context {E : Externals}.
Variables e1 e2 : UnsupervisedSampler.
Hypothesis Hcfg : same_config e1 e2.

Lemma agree_lift {A} (r : result A) : agree e1 e2 (lift r) (lift r).
Proof. intros wa wb Hv. split; [reflexivity|exact Hv]. Qed.

Lemma agree_ret {A} (a : A) : agree e1 e2 (ret a) (ret a).
Proof. intros wa wb Hv. split; [reflexivity|exact Hv]. Qed.

Lemma agree_bind {A B} (m1 m2 : M A) (k1 k2 : A -> M B) :
  agree e1 e2 m1 m2 -> (forall a, agree e1 e2 (k1 a) (k2 a)) ->
  agree e1 e2 (bind m1 k1) (bind m2 k2).
Proof.
  intros Hm Hk wa wb Hv. unfold bind.
  destruct (Hm wa wb Hv) as [Hr Hv'].
  destruct (m1 wa) as [r1 wa1], (m2 wb) as [r2 wb1]. simpl in Hr, Hv'. subst r2.
  destruct r1 as [a|e]; [now apply Hk|]. split; [reflexivity|exact Hv'].
Qed.

Lemma agree_graph :
  agree e1 e2 (fun w => (Ok (graphs w (self_graph e1)), w))
              (fun w => (Ok (graphs w (self_graph e2)), w)).
Proof.
  intros wa wb Hv. split; [|exact Hv]. simpl. unfold view in Hv. congruence.
Qed.

Lemma view_py_write (e : UnsupervisedSampler) (st : PyState) (w : World) :
  view e (py_write (wk_rng (self_walker e)) st w)
  = (graphs w (self_graph e), graphs w (wk_graph (self_walker e)),
     np_read (self_np_random e) w, st).
Proof.
  unfold view. destruct (wk_rng (self_walker e)) as [|l], (self_np_random e) as [|l'];
    simpl; unfold upd; rewrite ?Nat.eqb_refl; reflexivity.
Qed.

Lemma view_np_write (e : UnsupervisedSampler) (st : NpState) (w : World) :
  view e (np_write (self_np_random e) st w)
  = (graphs w (self_graph e), graphs w (wk_graph (self_walker e)),
     st, py_read (wk_rng (self_walker e)) w).
Proof.
  unfold view. destruct (wk_rng (self_walker e)) as [|l], (self_np_random e) as [|l'];
    simpl; unfold upd; rewrite ?Nat.eqb_refl; reflexivity.
Qed.

Lemma agree_walker_call (nodes : list NodeId) (length n : Z) (b : option bias) :
  agree e1 e2 (walker_call (self_walker e1) nodes length n b)
              (walker_call (self_walker e2) nodes length n b).
Proof.
  intros wa wb Hv. unfold walker_call.
  destruct Hcfg as (Hk & _).
  pose proof Hv as Hv0. unfold view in Hv0. injection Hv0 as Hg Hwg Hnp Hpy.
  rewrite Hk, Hwg, Hpy.
  destruct (walker_run _ _ _ _ _ _ _) as [r st]. simpl.
  split; [reflexivity|]. rewrite !view_py_write. congruence.
Qed.

Lemma agree_run_walks : agree e1 e2 (run_walks e1) (run_walks e2).
Proof.
  unfold run_walks. destruct Hcfg as (Hk & Hb & Hn & Hl & Hw).
  rewrite Hk, Hb, Hn, Hl, Hw.
  destruct (wk_kind (self_walker e2)); [apply agree_walker_call|].
  destruct (self_bias e2); [apply agree_walker_call|].
  intros wa wb Hv. split; [reflexivity|exact Hv].
Qed.

Lemma agree_rs_choice (a : list NodeId) (n : nat) (p : list npfloat) :
  agree e1 e2 (rs_choice (self_np_random e1) a n p) (rs_choice (self_np_random e2) a n p).
Proof.
  intros wa wb Hv. unfold rs_choice.
  pose proof Hv as Hv0. unfold view in Hv0. injection Hv0 as Hg Hwg Hnp Hpy.
  rewrite Hnp. destruct (np_choice _ _ _ _) as [r st]. simpl.
  split; [reflexivity|]. rewrite !view_np_write. congruence.
Qed.

Lemma agree_rs_permutation (n : nat) :
  agree e1 e2 (rs_permutation (self_np_random e1) n) (rs_permutation (self_np_random e2) n).
Proof.
  intros wa wb Hv. unfold rs_permutation.
  pose proof Hv as Hv0. unfold view in Hv0. injection Hv0 as Hg Hwg Hnp Hpy.
  rewrite Hnp. destruct (np_permutation _ _) as [r st]. simpl.
  split; [reflexivity|]. rewrite !view_np_write. congruence.
Qed.

Lemma agree_run (batch_size : pyval) : agree e1 e2 (run e1 batch_size) (run e2 batch_size).
Proof.
  unfold run, run_body.
  apply agree_bind; [|intros l; apply agree_ret].
  apply agree_bind; [apply agree_lift|intros _].
  apply agree_bind; [apply agree_graph|intros G].
  apply agree_bind; [apply agree_run_walks|intros ws].
  apply agree_bind; [apply agree_lift|intros ts].
  apply agree_bind; [apply agree_rs_choice|intros ns].
  apply agree_bind; [apply agree_lift|intros col].
  apply agree_bind; [apply agree_lift|intros nps].
  apply agree_bind; [apply agree_rs_permutation|intros idx].
  apply agree_bind; [apply agree_lift|intros step].
  apply agree_bind; [apply agree_lift|intros bs].
  apply agree_ret.
Qed.

Lemma agree_run_calls (sizes : list pyval) (wa wb : World) :
  view e1 wa = view e2 wb ->
  fst (run_calls e1 sizes wa) = fst (run_calls e2 sizes wb).
Proof.
  revert wa wb. induction sizes as [|b rest IH]; intros wa wb Hv; [reflexivity|].
  simpl. pose proof (agree_run b) as Hagree. destruct (Hagree wa wb Hv) as [Hr Hv2]. clear Hagree.
  destruct (run e1 b wa) as [r1 wa1], (run e2 b wb) as [r2 wb1]. simpl in Hr, Hv2.
  specialize (IH wa1 wb1 Hv2).
  destruct (run_calls e1 rest wa1) as [rs1 wa2], (run_calls e2 rest wb1) as [rs2 wb2].
  simpl in *. congruence.
Qed.

End Agreement.

(** ** The constructor *)

Section Constructor.
Context {E : Externals}.

Ltac init_unfold :=
  unfold __init__, new_UniformRandomWalk, random_state, bind, ret, raise,
         py_alloc, np_alloc.

(** C9: two instances constructed with the same arguments and the same
    integer seed, in two worlds in which the objects passed to the
    constructor are in the same state, give the same results, call by call,
    for any sequence of calls of [run]; a construction that raises in one
    world raises the same exception in the other. *)
Theorem seeded_instances_agree (G : graph_arg) (nodes : option nodes_obj)
    (length number_of_walks seed : Z) (walker : walker_arg)
    (kwargs : list (string * pyval)) (wa wb : World) :
  args_synced G walker wa wb ->
  match __init__ G nodes length number_of_walks (Some seed) walker kwargs wa,
        __init__ G nodes length number_of_walks (Some seed) walker kwargs wb with
  | (Ok e1, wa1), (Ok e2, wb1) =>
      forall sizes, fst (run_calls e1 sizes wa1) = fst (run_calls e2 sizes wb1)
  | (Raise x, _), (Raise y, _) => x = y
  | _, _ => False
  end.
Proof.
  intros [Hg Hw]. init_unfold.
  destruct G as [l|v]; [|reflexivity].
  destruct walker as [|wk|v]; [| |reflexivity].
  - simpl.
    destruct nodes as [x|]; [destruct (is_real_iterable x); [|reflexivity]|];
      (destruct (length <? 2)%Z; [reflexivity|]);
      (destruct (number_of_walks <? 1)%Z; [reflexivity|]);
      intros sizes; apply agree_run_calls;
      try (unfold same_config; simpl; repeat split; congruence);
      unfold view; simpl; unfold upd; rewrite !Nat.eqb_refl;
      (destruct (Nat.eqb_spec (py_next wa) (S (py_next wa))); [lia|]);
      (destruct (Nat.eqb_spec (py_next wb) (S (py_next wb))); [lia|]);
      congruence.
  - destruct Hw as (Hwg & Hpy & Ha & Hb). simpl.
    destruct nodes as [x|]; [destruct (is_real_iterable x); [|reflexivity]|];
      (destruct (length <? 2)%Z; [reflexivity|]);
      (destruct (number_of_walks <? 1)%Z; [reflexivity|]);
      intros sizes; apply agree_run_calls;
      try (unfold same_config; simpl; repeat split; congruence);
      unfold view; simpl; unfold upd; rewrite !Nat.eqb_refl;
      destruct (wk_rng wk) as [|j]; simpl in *;
      try (destruct (Nat.eqb_spec j (py_next wa)); [lia|]);
      try (destruct (Nat.eqb_spec j (py_next wb)); [lia|]);
      congruence.
Qed.

Lemma init_ok_nodes (G : graph_arg) (nodes : option nodes_obj)
    (length number_of_walks : Z) (seed : option Z) (walker : walker_arg)
    (kwargs : list (string * pyval)) (w w' : World) (self : UnsupervisedSampler) :
  __init__ G nodes length number_of_walks seed walker kwargs w = (Ok self, w') ->
  exists l, G = GraphRef l /\ nodes_ok nodes /\
            self_graph self = l /\
            self_nodes self = root_nodes nodes (graphs w l) /\
            self_length self = length /\ (2 <= length)%Z /\
            self_number_of_walks self = number_of_walks /\ (1 <= number_of_walks)%Z.
Proof.
  init_unfold.
  destruct G as [l|v]; [|discriminate].
  destruct walker as [|wk|v]; [| |discriminate];
    destruct seed as [s|]; simpl;
    (destruct nodes as [x|]; [destruct (is_real_iterable x) eqn:Hx; [|discriminate]|]);
    (destruct (Z.ltb_spec length 2); [discriminate|]);
    (destruct (Z.ltb_spec number_of_walks 1); [discriminate|]);
    intros Hinit; injection Hinit as <- <-; exists l; simpl; repeat split; auto.
Qed.

(** C8: the constructor raises when the walk length is below 2, when the
    number of walks is below 1 and when a [nodes] argument is given that is
    not a real iterable.  With a graph and a walker of the expected classes
    the exception is the [ValueError] of the first failing check, in the
    order nodes, length, number of walks; otherwise, so for every length
    from 2 on, the instance is constructed, with the length and the number
    of walks as given and, as root nodes, [list(nodes)] or, without a
    [nodes] argument, all the nodes of the graph. *)
Theorem constructor_checks (G : graph_arg) (nodes : option nodes_obj)
    (length number_of_walks : Z) (seed : option Z) (walker : walker_arg)
    (kwargs : list (string * pyval)) (w : World) :
  let r := fst (__init__ G nodes length number_of_walks seed walker kwargs w) in
  ((length < 2)%Z -> exists e, r = Raise e) /\
  ((number_of_walks < 1)%Z -> exists e, r = Raise e) /\
  (forall x, nodes = Some x -> is_real_iterable x = false -> exists e, r = Raise e) /\
  (forall l, G = GraphRef l -> (forall v, walker <> WalkerOther v) ->
     (forall x, nodes = Some x -> is_real_iterable x = false ->
        r = Raise (mk_exn ValueError msg_nodes)) /\
     (nodes_ok nodes -> (length < 2)%Z -> r = Raise (mk_exn ValueError msg_length)) /\
     (nodes_ok nodes -> (2 <= length)%Z -> (number_of_walks < 1)%Z ->
        r = Raise (mk_exn ValueError msg_number_of_walks)) /\
     (nodes_ok nodes -> (2 <= length)%Z -> (1 <= number_of_walks)%Z ->
        exists self, r = Ok self /\
                     self_graph self = l /\
                     self_nodes self = root_nodes nodes (graphs w l) /\
                     self_length self = length /\
                     self_number_of_walks self = number_of_walks)).
Proof.
  intros r. subst r. init_unfold.
  split; [|split; [|split]].
  - intros Hlen.
    destruct G as [l|v]; [|simpl; eauto].
    destruct walker as [|wk|v]; [| |simpl; eauto];
      destruct seed as [s|]; simpl;
      (destruct nodes as [x|]; [destruct (is_real_iterable x); [|simpl; eauto]|]);
      (destruct (Z.ltb_spec length 2); [simpl; eauto|lia]).
  - intros Hn.
    destruct G as [l|v]; [|simpl; eauto].
    destruct walker as [|wk|v]; [| |simpl; eauto];
      destruct seed as [s|]; simpl;
      (destruct nodes as [x|]; [destruct (is_real_iterable x); [|simpl; eauto]|]);
      (destruct (Z.ltb_spec length 2); [simpl; eauto|]);
      (destruct (Z.ltb_spec number_of_walks 1); [simpl; eauto|lia]).
  - intros x -> Hx.
    destruct G as [l|v]; [|simpl; eauto].
    destruct walker as [|wk|v]; [| |simpl; eauto];
      destruct seed as [s|]; simpl; rewrite Hx; simpl; eauto.
  - intros l -> Hwalker.
    assert (Hcases : walker = WalkerNone \/ exists wk, walker = WalkerRef wk).
    { destruct walker as [|wk|v]; [now left|right; eauto|now contradiction (Hwalker v)]. }
    clear Hwalker. split; [|split; [|split]].
    + intros x -> Hx.
      destruct Hcases as [->|(wk & ->)]; destruct seed as [s|]; simpl;
        rewrite Hx; reflexivity.
    + intros Hok Hlen.
      destruct Hcases as [->|(wk & ->)]; destruct seed as [s|]; simpl;
        (destruct nodes as [x|]; [simpl in Hok; rewrite Hok|]);
        (destruct (Z.ltb_spec length 2); [reflexivity|lia]).
    + intros Hok Hlen Hn.
      destruct Hcases as [->|(wk & ->)]; destruct seed as [s|]; simpl;
        (destruct nodes as [x|]; [simpl in Hok; rewrite Hok|]);
        (destruct (Z.ltb_spec length 2); [lia|]);
        (destruct (Z.ltb_spec number_of_walks 1); [reflexivity|lia]).
    + intros Hok Hlen Hn.
      destruct Hcases as [->|(wk & ->)]; destruct seed as [s|]; simpl;
        (destruct nodes as [x|]; [simpl in Hok; rewrite Hok|]);
        (destruct (Z.ltb_spec length 2); [lia|]);
        (destruct (Z.ltb_spec number_of_walks 1); [lia|]);
        simpl; eexists; repeat split.
Qed.
End Constructor.

(** ** No root node, no batch *)

Section NoRoots.
Context {E : Externals} {EOk : ExternalsOk E}.

Lemma run_walks_no_roots (self : UnsupervisedSampler) (w w1 : World)
    (ws : list (list NodeId)) :
  self_nodes self = [] -> run_walks self w = (Ok ws, w1) -> ws = [].
Proof.
  intros Hnodes. unfold run_walks, walker_call. rewrite Hnodes.
  destruct (wk_kind (self_walker self)).
  - destruct (walker_run _ _ _ _ _ _ _) as [r st] eqn:Hrun.
    intros H. injection H as -> _. eapply walker_run_no_roots; eassumption.
  - destruct (self_bias self); [|discriminate].
    destruct (walker_run _ _ _ _ _ _ _) as [r st] eqn:Hrun.
    intros H. injection H as -> _. eapply walker_run_no_roots; eassumption.
Qed.

Lemma pair_list_no_walks {A} (ts : list A) : pair_list ts [] = [].
Proof. unfold pair_list. destruct ts; reflexivity. Qed.

Lemma ceil_div_pos (n b : nat) : 0 < n -> 0 < b -> 0 < (n + b - 1) / b.
Proof. intros Hn Hb. apply Nat.div_str_pos. lia. Qed.

(** C10: an instance without root nodes cannot return from [run]: the call
    raises, and when the batch size is valid, the walker returns and
    [choice] returns, what is raised is the [IndexError] of
    [positive_pairs[:, 0]] on the empty array.  The constructor gives such
    an instance for an empty [nodes] argument and, without the argument,
    for a graph without nodes.  A call that returns has at least one walk,
    at least one positive pair and at least one batch. *)
Theorem no_roots_no_batches (self : UnsupervisedSampler) (batch_size : pyval) (w : World) :
  (self_nodes self = [] -> exists e, fst (run self batch_size w) = Raise e) /\
  (self_nodes self = [] ->
   forall ws w1 ns w2,
     _check_parameter_values batch_size = Ok tt ->
     run_walks self w = (Ok ws, w1) ->
     rs_choice (self_np_random self) (g_nodes (graphs w (self_graph self))) 0
               (sampling_distribution_norm_of (graphs w (self_graph self))) w1
     = (Ok ns, w2) ->
     run self batch_size w
     = (Raise (mk_exn IndexError "too many indices for array"), w2)) /\
  (forall G nodes length number_of_walks seed walker kwargs w0,
     __init__ G nodes length number_of_walks seed walker kwargs w0 = (Ok self, w) ->
     match nodes, G with
     | Some x, _ => py_list x = []
     | None, GraphRef l => g_nodes (graphs w0 l) = []
     | None, NotAGraph _ => False
     end ->
     self_nodes self = []) /\
  (forall bs w', run self batch_size w = (Ok bs, w') ->
     bs <> [] /\
     exists l, run_body self batch_size w = (Ok l, w') /\ batches l = bs /\
               walks l <> [] /\ positive_pairs l <> []).
Proof.
  split; [|split; [|split]].
  - intros Hnodes. unfold run, run_body, bind, lift.
    destruct (_check_parameter_values batch_size) as [[]|e]; [|simpl; eauto].
    destruct (run_walks self w) as [[ws|e] w1] eqn:Hwalks; [|simpl; eauto].
    apply (run_walks_no_roots _ _ Hnodes) in Hwalks. subst ws.
    unfold targets_of. cbn [rmapM]. rewrite !pair_list_no_walks.
    destruct (rs_choice _ _ _ _ w1) as [[ns|e] w2]; simpl; eauto.
  - intros Hnodes ws w1 ns w2 Hcheck Hwalks Hchoice.
    unfold run, run_body, bind, lift. rewrite Hcheck, Hwalks.
    apply (run_walks_no_roots _ _ Hnodes) in Hwalks. subst ws.
    unfold targets_of. cbn [rmapM]. rewrite !pair_list_no_walks.
    cbn [List.length]. rewrite Hchoice. reflexivity.
  - intros G nodes length number_of_walks seed walker kwargs w0 Hinit Hempty.
    apply init_ok_nodes in Hinit.
    destruct Hinit as (l & -> & _ & _ & -> & _).
    destruct nodes as [x|]; exact Hempty.
  - intros bs w' Hrun. unfold run, bind, ret in Hrun.
    destruct (run_body self batch_size w) as [[l|e] w1] eqn:Hbody; [|discriminate].
    injection Hrun as <- <-.
    pose proof (run_body_steps _ _ _ Hbody) as (b & wa & wb & -> & Hsteps).
    pose proof (run_steps_lengths Hsteps) as (Hne & _ & _ & _ & Hpl & _).
    pose proof Hsteps as [[Hb _] _ _ _ _ Hp _ _ _ _ Hi Hbi Hbs].
    assert (Hwalks : walks l <> []).
    { intros Hw. apply Hne. rewrite Hp, Hw. apply pair_list_no_walks. }
    split; [|exists l; repeat split; assumption].
    intros Hnil. apply rmapM_ok_length in Hbs. rewrite Hnil, Hbi in Hbs.
    rewrite batch_indices_length in Hbs.
    apply rs_permutation_ok in Hi.
    pose proof (np_permutation_perm (np_read (self_np_random self) wb)
                                    (List.length (pairs l))) as Hperm.
    rewrite Hi in Hperm. simpl in Hperm. apply Permutation_length in Hperm.
    rewrite length_seq in Hperm.
    assert (0 < List.length (positive_pairs l)).
    { destruct (positive_pairs l); [congruence|simpl; lia]. }
    pose proof (@ceil_div_pos (List.length (indices l)) (Z.to_nat b)).
    simpl in Hbs. lia.
Qed.

End NoRoots.

(** ** More calls on the graph A, B, C, D and on the graph without edges *)

Lemma zero_degrees_raise_witness :
  ExternalsOk Toy.externals /\
  (forall n, In n (g_nodes (graphs Toy.world1 (self_graph Toy.sampler0))) ->
             node_degrees (graphs Toy.world1 (self_graph Toy.sampler0)) n = O) /\
  Forall is_nan (sampling_distribution_norm_of
                   (graphs Toy.world1 (self_graph Toy.sampler0))) /\
  exists e, fst (run Toy.sampler0 (PyInt 4) Toy.world1) = Raise e.
Proof.
  assert (Hzero : forall n,
            In n (g_nodes (graphs Toy.world1 (self_graph Toy.sampler0))) ->
            node_degrees (graphs Toy.world1 (self_graph Toy.sampler0)) n = O).
  { intros n [<-|[<-|[]]]; reflexivity. }
  split; [exact ToyFacts.externals_ok|]. split; [exact Hzero|].
  exact (@zero_degrees_raise Toy.externals ToyFacts.externals_ok Toy.sampler0 (PyInt 4)
           Toy.world1 Hzero).
Defined.

Lemma batch_size_is_checked_first_witness :
  run Toy.sampler PyNone Toy.world1
  = (Raise (mk_exn ValueError msg_batch_size_missing), Toy.world1) /\
  run Toy.sampler (PyFloat 1 1) Toy.world1
  = (Raise (mk_exn TypeError msg_batch_size_positive), Toy.world1) /\
  run Toy.sampler (PyInt 0) Toy.world1
  = (Raise (mk_exn ValueError msg_batch_size_positive), Toy.world1) /\
  run Toy.sampler (PyInt 3) Toy.world1
  = (Raise (mk_exn ValueError msg_batch_size_even), Toy.world1) /\
  _check_parameter_values (PyInt 4) = Ok tt.
Proof.
  destruct (batch_size_is_checked_first Toy.sampler Toy.world1)
    as (Hnone & _ & Hfloat & _ & Hlow & Hodd & Heven & _).
  split; [exact Hnone|]. split; [exact (Hfloat 1%Z 1%Z)|].
  split; [apply Hlow; lia|]. split; [apply Hodd; [lia|discriminate]|].
  apply Heven; [lia|reflexivity].
Defined.

Lemma constructor_checks_witness :
  (exists e, fst (__init__ (GraphRef 0) None 1 1 (Some 1%Z) WalkerNone [] Toy.world)
             = Raise e) /\
  (exists e, fst (__init__ (GraphRef 0) None 2 0 (Some 1%Z) WalkerNone [] Toy.world)
             = Raise e) /\
  (exists e, fst (@__init__ Toy.externals (GraphRef 0) (Some None) 2 1 (Some 1%Z)
                                WalkerNone [] Toy.world)
             = Raise e) /\
  (exists self,
     fst (__init__ (GraphRef 0) None 2 1 (Some 1%Z) WalkerNone [] Toy.world) = Ok self /\
     self_graph self = 0 /\
     self_nodes self = root_nodes None (graphs Toy.world 0) /\
     self_length self = 2%Z /\
     self_number_of_walks self = 1%Z).
Proof.
  split; [|split; [|split]].
  - destruct (constructor_checks (GraphRef 0) None 1 1 (Some 1%Z) WalkerNone [] Toy.world)
      as (Hlen & _).
    apply Hlen. lia.
  - destruct (constructor_checks (GraphRef 0) None 2 0 (Some 1%Z) WalkerNone [] Toy.world)
      as (_ & Hn & _).
    apply Hn. lia.
  - destruct (@constructor_checks Toy.externals (GraphRef 0) (Some None) 2 1 (Some 1%Z)
                WalkerNone [] Toy.world) as (_ & _ & Hnodes & _).
    apply (Hnodes None); reflexivity.
  - destruct (constructor_checks (GraphRef 0) None 2 1 (Some 1%Z) WalkerNone [] Toy.world)
      as (_ & _ & _ & Hgood).
    destruct (Hgood 0 eq_refl) as (_ & _ & _ & Hok); [intros v; discriminate|].
    apply Hok; [exact I|lia|lia].
Defined.

Lemma seeded_instances_agree_witness :
  args_synced (GraphRef 0) WalkerNone Toy.world Toy.world_b /\
  is_ok (fst (__init__ (GraphRef 0) None 2 1 (Some 1%Z) WalkerNone [] Toy.world)) = true /\
  match __init__ (GraphRef 0) None 2 1 (Some 1%Z) WalkerNone [] Toy.world,
        __init__ (GraphRef 0) None 2 1 (Some 1%Z) WalkerNone [] Toy.world_b with
  | (Ok e1, wa1), (Ok e2, wb1) =>
      forall sizes, fst (run_calls e1 sizes wa1) = fst (run_calls e2 sizes wb1)
  | (Raise x, _), (Raise y, _) => x = y
  | _, _ => False
  end.
Proof.
  assert (Hsync : args_synced (GraphRef 0) WalkerNone Toy.world Toy.world_b).
  { split; [reflexivity|exact I]. }
  split; [exact Hsync|]. split; [reflexivity|].
  exact (@seeded_instances_agree Toy.externals (GraphRef 0) None 2 1 1 WalkerNone []
           Toy.world Toy.world_b Hsync).
Defined.

Lemma no_roots_no_batches_witness :
  ExternalsOk Toy.externals /\
  self_nodes Toy.sampler_no_roots = [] /\
  (exists e, fst (run Toy.sampler_no_roots (PyInt 4) Toy.world1) = Raise e) /\
  batches Toy.locals4 <> [] /\
  exists l, run_body Toy.sampler (PyInt 4) Toy.world1 = (Ok l, Toy.world2) /\
            batches l = batches Toy.locals4 /\
            walks l <> [] /\ positive_pairs l <> [].
Proof.
  assert (Hrun : run Toy.sampler (PyInt 4) Toy.world1
                 = (Ok (batches Toy.locals4), Toy.world2)).
  { unfold run, bind. rewrite ToyFacts.run_sampler. reflexivity. }
  split; [exact ToyFacts.externals_ok|]. split; [reflexivity|]. split.
  - apply (@no_roots_no_batches Toy.externals ToyFacts.externals_ok Toy.sampler_no_roots
             (PyInt 4) Toy.world1). reflexivity.
  - apply (@no_roots_no_batches Toy.externals ToyFacts.externals_ok Toy.sampler
             (PyInt 4) Toy.world1). exact Hrun.
Defined.

(** * Further properties of the constructor and of [run] *)

(** ** What a call of [run] touches *)

Section FrameFacts.
Context {E : Externals}.
Variable self : UnsupervisedSampler.

Lemma touches_only_refl (w : World) : touches_only self w w.
Proof. repeat split. Qed.

Lemma touches_only_trans (w1 w2 w3 : World) :
  touches_only self w1 w2 -> touches_only self w2 w3 -> touches_only self w1 w3.
Proof.
  intros (Hg & Hn & Hp & Hnp & Hpy) (Hg' & Hn' & Hp' & Hnp' & Hpy').
  repeat split; try congruence.
  - intros h Hh. rewrite (Hnp' h Hh). now apply Hnp.
  - intros h Hh. rewrite (Hpy' h Hh). now apply Hpy.
Qed.

Lemma touches_only_np_write (st : NpState) (w : World) :
  touches_only self w (np_write (self_np_random self) st w).
Proof.
  unfold touches_only.
  destruct (self_np_random self) as [|l]; simpl;
    (split; [reflexivity|]); (split; [reflexivity|]); (split; [reflexivity|]);
    (split; [|intros [|l'] _; reflexivity]).
  - intros [|l'] Hh; [contradiction Hh; reflexivity|reflexivity].
  - intros [|l'] Hh; [reflexivity|]. simpl. unfold upd.
    destruct (Nat.eqb_spec l' l); [congruence|reflexivity].
Qed.

Lemma touches_only_py_write (st : PyState) (w : World) :
  touches_only self w (py_write (wk_rng (self_walker self)) st w).
Proof.
  unfold touches_only.
  destruct (wk_rng (self_walker self)) as [|l]; simpl;
    (split; [reflexivity|]); (split; [reflexivity|]); (split; [reflexivity|]);
    (split; [intros [|l'] _; reflexivity|]).
  - intros [|l'] Hh; [contradiction Hh; reflexivity|reflexivity].
  - intros [|l'] Hh; [reflexivity|]. simpl. unfold upd.
    destruct (Nat.eqb_spec l' l); [congruence|reflexivity].
Qed.

Lemma touches_only_bind {A B} (m : M A) (k : A -> M B) :
  (forall w, touches_only self w (snd (m w))) ->
  (forall a w, touches_only self w (snd (k a w))) ->
  forall w, touches_only self w (snd (bind m k w)).
Proof.
  intros Hm Hk w. unfold bind. specialize (Hm w).
  destruct (m w) as [[a|e] w1]; simpl in Hm.
  - eapply touches_only_trans; [exact Hm|apply Hk].
  - exact Hm.
Qed.

Lemma touches_only_lift {A} (r : result A) (w : World) :
  touches_only self w (snd (lift r w)).
Proof. apply touches_only_refl. Qed.

Lemma touches_only_run_walks (w : World) : touches_only self w (snd (run_walks self w)).
Proof.
  unfold run_walks, walker_call.
  destruct (wk_kind (self_walker self)).
  - destruct (walker_run _ _ _ _ _ _ _) as [r st]. apply touches_only_py_write.
  - destruct (self_bias self); [|apply touches_only_refl].
    destruct (walker_run _ _ _ _ _ _ _) as [r st]. apply touches_only_py_write.
Qed.

Lemma touches_only_rs_choice (a : list NodeId) (n : nat) (p : list npfloat) (w : World) :
  touches_only self w (snd (rs_choice (self_np_random self) a n p w)).
Proof.
  unfold rs_choice. destruct (np_choice _ _ _ _) as [r st]. apply touches_only_np_write.
Qed.

Lemma touches_only_rs_permutation (n : nat) (w : World) :
  touches_only self w (snd (rs_permutation (self_np_random self) n w)).
Proof.
  unfold rs_permutation. destruct (np_permutation _ _) as [r st].
  apply touches_only_np_write.
Qed.

Lemma run_frame (batch_size : pyval) (w : World) :
  touches_only self w (snd (run self batch_size w)).
Proof.
  revert w. unfold run, run_body.
  apply touches_only_bind; [|intros l w; apply touches_only_refl].
  apply touches_only_bind; [apply touches_only_lift|intros _].
  apply touches_only_bind; [intros w; apply touches_only_refl|intros G].
  apply touches_only_bind; [apply touches_only_run_walks|intros ws].
  apply touches_only_bind; [apply touches_only_lift|intros ts].
  apply touches_only_bind; [apply touches_only_rs_choice|intros ns].
  apply touches_only_bind; [apply touches_only_lift|intros col].
  apply touches_only_bind; [apply touches_only_lift|intros nps].
  apply touches_only_bind; [apply touches_only_rs_permutation|intros idx].
  apply touches_only_bind; [apply touches_only_lift|intros step].
  apply touches_only_bind; [apply touches_only_lift|intros bs].
  intros w. apply touches_only_refl.
Qed.

Lemma run_calls_frame (sizes : list pyval) (w : World) :
  touches_only self w (snd (run_calls self sizes w)).
Proof.
  revert w. induction sizes as [|b rest IH]; intros w; [apply touches_only_refl|].
  simpl. pose proof (run_frame b w) as H1.
  destruct (run self b w) as [r w1]. simpl in H1.
  specialize (IH w1). destruct (run_calls self rest w1) as [rs w2]. simpl in *.
  eapply touches_only_trans; eassumption.
Qed.

(** X1: a sequence of calls of [run], whether they return or raise,
    changes nothing in the world but the numpy stream of the instance and
    the stream of its walker: the graphs, the free places and all other
    streams are as before. *)
Theorem run_touches_only_its_streams (sizes : list pyval) (w : World) :
  graphs (snd (run_calls self sizes w)) = graphs w /\
  np_next (snd (run_calls self sizes w)) = np_next w /\
  py_next (snd (run_calls self sizes w)) = py_next w /\
  (forall h, h <> self_np_random self ->
             np_read h (snd (run_calls self sizes w)) = np_read h w) /\
  (forall h, h <> wk_rng (self_walker self) ->
             py_read h (snd (run_calls self sizes w)) = py_read h w).
Proof. exact (run_calls_frame sizes w). Qed.

End FrameFacts.

(** ** How a call advances the streams *)

Section Streams.
Context {E : Externals}.

Lemma np_read_py_write (h h' : handle) (st : PyState) (w : World) :
  np_read h (py_write h' st w) = np_read h w.
Proof. destruct h, h'; reflexivity. Qed.

Lemma py_read_np_write (h h' : handle) (st : NpState) (w : World) :
  py_read h (np_write h' st w) = py_read h w.
Proof. destruct h, h'; reflexivity. Qed.

Lemma py_read_py_write (h : handle) (st : PyState) (w : World) :
  py_read h (py_write h st w) = st.
Proof. destruct h; simpl; [reflexivity|]. unfold upd. now rewrite Nat.eqb_refl. Qed.

Lemma run_walks_ok (self : UnsupervisedSampler) (w w1 : World) (ws : list (list NodeId)) :
  run_walks self w = (Ok ws, w1) ->
  walker_run (wk_kind (self_walker self)) (graphs w (wk_graph (self_walker self)))
             (py_read (wk_rng (self_walker self)) w)
             (self_nodes self) (self_length self) (self_number_of_walks self)
             (walker_bias self)
  = (Ok ws, py_read (wk_rng (self_walker self)) w1) /\
  (forall h, np_read h w1 = np_read h w).
Proof.
  unfold run_walks, walker_bias, walker_call.
  destruct (wk_kind (self_walker self)).
  - destruct (walker_run _ _ _ _ _ _ _) as [r st]. intros H. injection H as -> <-.
    rewrite py_read_py_write. split; [reflexivity|]. intros h. apply np_read_py_write.
  - destruct (self_bias self) as [b|]; [|discriminate].
    destruct (walker_run _ _ _ _ _ _ _) as [r st]. intros H. injection H as -> <-.
    rewrite py_read_py_write. split; [reflexivity|]. intros h. apply np_read_py_write.
Qed.

Lemma rs_choice_py (h h' : handle) (a : list NodeId) (n : nat) (p : list npfloat)
    (w : World) :
  py_read h' (snd (rs_choice h a n p w)) = py_read h' w.
Proof.
  unfold rs_choice. destruct (np_choice _ _ _ _) as [r st]. apply py_read_np_write.
Qed.

Lemma rs_permutation_py (h h' : handle) (n : nat) (w : World) :
  py_read h' (snd (rs_permutation h n w)) = py_read h' w.
Proof.
  unfold rs_permutation. destruct (np_permutation _ _) as [r st]. apply py_read_np_write.
Qed.

(** X2: a call of [run] that returns has made one call of the walker, on
    the walker's stream as it was at the call, with the root nodes, the
    length and the number of walks of the instance and, for a biased
    walker only, its [p], [q] and [weighted]; then one call of [choice] on
    the instance's stream as it was at the call; then one call of
    [permutation] on the stream as [choice] left it.  The streams after the
    call are the ones these calls left, so the next call continues from
    there. *)
Theorem run_advances_streams (self : UnsupervisedSampler) (batch_size : pyval)
    (w : World) (l : run_locals) (w' : World) :
  run_body self batch_size w = (Ok l, w') ->
  walker_run (wk_kind (self_walker self)) (graphs w (wk_graph (self_walker self)))
             (py_read (wk_rng (self_walker self)) w)
             (self_nodes self) (self_length self) (self_number_of_walks self)
             (walker_bias self)
  = (Ok (walks l), py_read (wk_rng (self_walker self)) w') /\
  exists st,
    np_choice (np_read (self_np_random self) w) (all_nodes l)
              (List.length (positive_pairs l)) (sampling_distribution_norm l)
    = (Ok (negative_samples l), st) /\
    np_permutation st (List.length (pairs l))
    = (indices l, np_read (self_np_random self) w').
Proof.
  intros Hrun. apply run_body_steps in Hrun.
  destruct Hrun as (b & w1 & w2 & _ & Hsteps).
  destruct Hsteps as [_ _ _ Hw _ _ Hc _ _ _ Hi _ _].
  apply run_walks_ok in Hw. destruct Hw as [Hw Hnp].
  pose proof (rs_choice_py (self_np_random self) (wk_rng (self_walker self))
                (all_nodes l) (List.length (positive_pairs l))
                (sampling_distribution_norm l) w1) as Hpy1.
  pose proof (rs_permutation_py (self_np_random self) (wk_rng (self_walker self))
                (List.length (pairs l)) w2) as Hpy2.
  rewrite Hc in Hpy1. rewrite Hi in Hpy2. simpl in Hpy1, Hpy2.
  apply rs_choice_ok in Hc. apply rs_permutation_ok in Hi.
  split.
  - rewrite Hw. f_equal. congruence.
  - exists (np_read (self_np_random self) w2). rewrite <- Hnp. split; assumption.
Qed.

Lemma view_after_other_runs (e1 e2 : UnsupervisedSampler) (sizes1 : list pyval)
    (w : World) :
  self_np_random e1 <> self_np_random e2 ->
  wk_rng (self_walker e1) <> wk_rng (self_walker e2) ->
  view e2 (snd (run_calls e1 sizes1 w)) = view e2 w.
Proof.
  intros Hnp Hpy.
  destruct (run_calls_frame e1 sizes1 w) as (Hg & _ & _ & Hn & Hp).
  unfold view. rewrite Hg, (Hn _ (not_eq_sym Hnp)), (Hp _ (not_eq_sym Hpy)).
  reflexivity.
Qed.

(** X3: calls of [run] on one instance do not change what another
    instance returns, when the two instances do not share a stream: after
    any calls on the first, the second returns what it would have returned
    without them. *)
Theorem runs_do_not_interfere (e1 e2 : UnsupervisedSampler)
    (sizes1 sizes : list pyval) (w : World) :
  self_np_random e1 <> self_np_random e2 ->
  wk_rng (self_walker e1) <> wk_rng (self_walker e2) ->
  fst (run_calls e2 sizes (snd (run_calls e1 sizes1 w))) = fst (run_calls e2 sizes w).
Proof.
  intros Hnp Hpy.
  apply agree_run_calls; [repeat split|].
  now apply view_after_other_runs.
Qed.

Ltac init_steps :=
  unfold __init__, new_UniformRandomWalk, random_state, bind, ret, raise,
         py_alloc, np_alloc.

(** X4: two instances constructed one after the other in one world, with
    the same arguments, the same integer seed and no walker argument, have
    streams of their own (with [random_state] as modelled above), and
    however often [run] was called on the first, the second returns for a
    sequence of calls what the first returns for that sequence from its
    construction. *)
Theorem seeded_instances_in_one_world (G : graph_arg) (nodes : option nodes_obj)
    (length number_of_walks seed : Z) (kwargs : list (string * pyval)) (w0 : World) :
  match __init__ G nodes length number_of_walks (Some seed) WalkerNone kwargs w0 with
  | (Ok e1, w1) =>
      match __init__ G nodes length number_of_walks (Some seed) WalkerNone kwargs w1 with
      | (Ok e2, w2) =>
          self_np_random e1 <> self_np_random e2 /\
          wk_rng (self_walker e1) <> wk_rng (self_walker e2) /\
          forall sizes1 sizes,
            fst (run_calls e2 sizes (snd (run_calls e1 sizes1 w2)))
            = fst (run_calls e1 sizes w2)
      | (Raise _, _) => False
      end
  | (Raise e, w1) =>
      fst (__init__ G nodes length number_of_walks (Some seed) WalkerNone kwargs w1)
      = Raise e
  end.
Proof.
  init_steps.
  destruct G as [l|v]; [|reflexivity]. simpl.
  destruct nodes as [x|]; [destruct (is_real_iterable x); [|reflexivity]|];
    (destruct (length <? 2)%Z; [reflexivity|]);
    (destruct (number_of_walks <? 1)%Z; [reflexivity|]);
    (split; [intros H; injection H; lia|]);
    (split; [intros H; injection H; lia|]);
    intros sizes1 sizes;
    (etransitivity;
     [apply agree_run_calls;
      [repeat split|apply view_after_other_runs; simpl; intros H; injection H; lia]|]);
    apply agree_run_calls; try (repeat split; reflexivity);
    unfold view; simpl; unfold upd; rewrite ?Nat.eqb_refl;
    repeat match goal with
           | |- context [Nat.eqb ?a ?b] => destruct (Nat.eqb_spec a b); [lia|]
           end;
    reflexivity.
Qed.


End Streams.

(** ** The outcome of the constructor *)

Section ConstructorOutcome.
Context {E : Externals}.

Ltac init_steps :=
  unfold __init__, new_UniformRandomWalk, random_state, bind, ret, raise,
         py_alloc, np_alloc.

(** X5: an object that is not a graph is a [ValueError] and, for a graph,
    a walker of another class is a [TypeError]; both are raised before
    anything is made, so the world is as it was, whatever the other
    arguments and the seed are.  And whenever the constructor returns an
    instance, the graph and the walker were of the expected classes, the
    [nodes] argument was absent or a real iterable, the length was at least
    2 and the number of walks at least 1. *)
Theorem constructor_outcome (G : graph_arg) (nodes : option nodes_obj)
    (length number_of_walks : Z) (seed : option Z) (walker : walker_arg)
    (kwargs : list (string * pyval)) (w : World) :
  (forall v, G = NotAGraph v ->
     __init__ G nodes length number_of_walks seed walker kwargs w
     = (Raise (mk_exn ValueError msg_graph), w)) /\
  (forall l v, G = GraphRef l -> walker = WalkerOther v ->
     __init__ G nodes length number_of_walks seed walker kwargs w
     = (Raise (mk_exn TypeError msg_walker), w)) /\
  (forall self w',
     __init__ G nodes length number_of_walks seed walker kwargs w = (Ok self, w') ->
     (exists l, G = GraphRef l) /\ (forall v, walker <> WalkerOther v) /\
     nodes_ok nodes /\ (2 <= length)%Z /\ (1 <= number_of_walks)%Z).
Proof.
  split; [intros v ->; reflexivity|].
  split; [intros l v -> ->; reflexivity|].
  intros self w' Hinit.
  pose proof (init_ok_nodes _ _ _ _ _ _ _ _ Hinit)
    as (l & HG & Hn & _ & _ & _ & Hl & _ & Hw).
  repeat split; eauto.
  intros v ->. subst G. discriminate Hinit.
Qed.

(** X6: an instance that the constructor returns has the walker that was
    passed or, without a walker argument, a uniform walker on the graph of
    the instance; it has [p], [q] and [weighted] exactly when its walker is
    biased, from the keyword arguments with the defaults 1.0, 1.0 and
    [False]; and [run] calls its walker with these for a biased walker and
    without them for a uniform one, so that the attributes it reads are
    always there. *)
Theorem constructed_walker_and_bias (G : graph_arg) (nodes : option nodes_obj)
    (length number_of_walks : Z) (seed : option Z) (walker : walker_arg)
    (kwargs : list (string * pyval)) (w w' : World) (self : UnsupervisedSampler) :
  __init__ G nodes length number_of_walks seed walker kwargs w = (Ok self, w') ->
  (walker = WalkerNone ->
   wk_kind (self_walker self) = UniformRandomWalk /\
   wk_graph (self_walker self) = self_graph self) /\
  (forall wk, walker = WalkerRef wk -> self_walker self = wk) /\
  self_bias self
  = match wk_kind (self_walker self) with
    | UniformRandomWalk => None
    | BiasedRandomWalk =>
        Some (mk_bias (kwargs_get kwargs "p" (PyFloat 1 0))
                      (kwargs_get kwargs "q" (PyFloat 1 0))
                      (kwargs_get kwargs "weighted" (PyBool false)))
    end /\
  forall w0, run_walks self w0
             = walker_call (self_walker self) (self_nodes self) (self_length self)
                           (self_number_of_walks self) (walker_bias self) w0.
Proof.
  init_steps.
  destruct G as [l|v]; [|discriminate].
  destruct walker as [|wk|v]; [| |discriminate];
    destruct seed as [s|]; simpl;
    (destruct nodes as [x|]; [destruct (is_real_iterable x); [|discriminate]|]);
    (destruct (length <? 2)%Z; [discriminate|]);
    (destruct (number_of_walks <? 1)%Z; [discriminate|]);
    intros Hinit; injection Hinit as <- <-; simpl;
    (split; [intros Hw; try discriminate Hw; split; reflexivity|]);
    (split; [intros wk' Hw; try discriminate Hw; try (injection Hw as ->); reflexivity|]);
    (split; [reflexivity|]);
    intros w0; unfold run_walks, walker_bias; simpl;
    try reflexivity; destruct (wk_kind wk); reflexivity.
Qed.

End ConstructorOutcome.

(** ** Walks of any lengths *)

Section RaggedWalks.
Context {E : Externals}.

Lemma targets_of_nonempty {A} (ws : list (list A)) :
  Forall (fun walk => walk <> []) ws ->
  exists ts, targets_of ws = Ok ts /\
             Forall2 (fun walk t => hd_error walk = Some t) ws ts /\
             List.length (pair_list ts ws)
             = list_sum (map (fun walk => List.length walk - 1) ws).
Proof.
  unfold targets_of. induction 1 as [|walk rest Hne _ (ts & Ht & Hh & Hn)].
  - exists []. repeat split. constructor.
  - destruct walk as [|t ctx]; [congruence|].
    exists (t :: ts). simpl rmapM. rewrite Ht. simpl.
    split; [reflexivity|]. split; [now constructor|].
    rewrite pair_list_cons, length_app, length_map, Hn. simpl. now rewrite Nat.sub_0_r.
Qed.

Lemma targets_of_empty_walk {A} (ws : list (list A)) :
  In [] ws -> targets_of ws = Raise (mk_exn IndexError "list index out of range").
Proof.
  unfold targets_of. induction ws as [|walk rest IH]; [intros []|].
  intros [->|Hin]; [reflexivity|].
  simpl. destruct walk as [|t ctx]; [reflexivity|].
  simpl. now rewrite (IH Hin).
Qed.

(** X7: walks need not have one length.  When no walk is empty, the
    target of each walk is its first node and the number of positive pairs
    is the sum over the walks of their length less one, so a walk of a
    single node gives no pair.  When some walk is empty, reading its first
    node is an [IndexError], and a call of [run] whose walker returned such
    walks raises it, after the walker's stream has advanced. *)
Theorem pairs_of_ragged_walks (ws : list (list NodeId)) :
  (Forall (fun walk => walk <> []) ws ->
   exists ts, targets_of ws = Ok ts /\
              Forall2 (fun walk t => hd_error walk = Some t) ws ts /\
              List.length (pair_list ts ws)
              = list_sum (map (fun walk => List.length walk - 1) ws)) /\
  (In [] ws ->
   targets_of ws = Raise (mk_exn IndexError "list index out of range") /\
   forall self batch_size w w1,
     _check_parameter_values batch_size = Ok tt ->
     run_walks self w = (Ok ws, w1) ->
     run self batch_size w
     = (Raise (mk_exn IndexError "list index out of range"), w1)).
Proof.
  split; [apply targets_of_nonempty|].
  intros Hin. pose proof (targets_of_empty_walk ws Hin) as Ht.
  split; [exact Ht|].
  intros self batch_size w w1 Hcheck Hwalks.
  unfold run, run_body, bind, lift. now rewrite Hcheck, Hwalks, Ht.
Qed.

End RaggedWalks.

(** ** A call that returns *)

Lemma Forall_firstn {A} (P : A -> Prop) (n : nat) (l : list A) :
  Forall P l -> Forall P (firstn n l).
Proof.
  intros H. revert n. induction H as [|x l Hx _ IH]; intros [|n]; simpl;
    constructor; auto.
Qed.

Lemma Forall_skipn {A} (P : A -> Prop) (n : nat) (l : list A) :
  Forall P l -> Forall P (skipn n l).
Proof.
  intros H. revert n. induction H as [|x l Hx Hl IH]; intros [|n]; simpl;
    try constructor; auto.
Qed.

Lemma take_rows_in_range {A} (a : list A) (idx : list nat) :
  Forall (fun i => i < List.length a) idx -> exists rows, take_rows a idx = Ok rows.
Proof.
  induction 1 as [|i idxs Hi _ (rows & IH)].
  - exists []. reflexivity.
  - destruct (nth_error a i) as [x|] eqn:Hx.
    + exists (x :: rows). apply take_rows_ok. constructor; [assumption|].
      now apply take_rows_ok.
    + apply nth_error_None in Hx. lia.
Qed.

Lemma rmapM_all_ok {A B} (f : A -> result B) (l : list A) :
  Forall (fun x => exists y, f x = Ok y) l -> exists ys, rmapM f l = Ok ys.
Proof.
  induction 1 as [|x xs (y & Hy) _ (ys & IH)].
  - exists []. reflexivity.
  - exists (y :: ys). simpl. now rewrite Hy, IH.
Qed.

Section Returns.
Context {E : Externals} {EOk : ExternalsOk E}.

Lemma batches_exist (pairs : list (NodeId * NodeId)) (labels : list Z)
    (idx : list nat) (b : nat) :
  List.length labels = List.length pairs ->
  Permutation idx (seq 0 (List.length pairs)) ->
  exists bs, rmapM (batch_of pairs labels) (batch_indices_of idx b) = Ok bs.
Proof.
  intros Hlen Hperm.
  assert (Hall : Forall (fun i => i < List.length pairs) idx).
  { eapply Permutation_Forall; [symmetry; exact Hperm|].
    apply Forall_forall. intros i Hi. apply in_seq in Hi. lia. }
  apply rmapM_all_ok. unfold batch_indices_of. rewrite batch_indices_of_eq.
  apply Forall_forall. intros chunk Hc. apply in_map_iff in Hc.
  destruct Hc as (k & <- & _).
  assert (Hchunk : Forall (fun i => i < List.length pairs)
                          (firstn b (skipn (k * b) idx))).
  { apply Forall_firstn, Forall_skipn, Hall. }
  destruct (take_rows_in_range pairs Hchunk) as (ps & Hps).
  rewrite <- Hlen in Hchunk.
  destruct (take_rows_in_range labels Hchunk) as (ls & Hls).
  exists (ps, ls). unfold batch_of. now rewrite Hps, Hls.
Qed.

(** X8: a call of [run] returns whenever the batch size is an even
    positive integer, the walker returns walks none of which is empty and
    one of which has a second node, and [choice] returns as many samples as
    it was asked for: the indexing of the pairs and labels by the shuffled
    chunks never leaves the arrays.  With [n] positive pairs, the call
    returns [ceil(2n / batch_size)] batches that hold [2n] rows in all. *)
Theorem run_returns (self : UnsupervisedSampler) (b : Z) (w w1 w2 : World)
    (ws : list (list NodeId)) (ns : list NodeId) :
  let G := graphs w (self_graph self) in
  let n := list_sum (map (fun walk => List.length walk - 1) ws) in
  (1 <= b)%Z -> (b mod 2 = 0)%Z ->
  run_walks self w = (Ok ws, w1) ->
  Forall (fun walk => walk <> []) ws ->
  Exists (fun walk => 2 <= List.length walk) ws ->
  rs_choice (self_np_random self) (g_nodes G) n (sampling_distribution_norm_of G) w1
  = (Ok ns, w2) ->
  List.length ns = n ->
  exists bs w',
    run self (PyInt b) w = (Ok bs, w') /\
    List.length bs = ceil_div (2 * n) (Z.to_nat b) /\
    List.length (List.concat (map fst bs)) = 2 * n /\
    List.length (List.concat (map snd bs)) = 2 * n.
Proof.
  intros G n Hb Heven Hwalks Hne Hex Hchoice Hns.
  destruct (targets_of_nonempty Hne) as (ts & Hts & _ & Hn). fold n in Hn.
  assert (Hpos : 0 < n).
  { subst n. clear -Hex. induction Hex as [walk rest H2|walk rest _ IH]; simpl; lia. }
  set (pos := pair_list ts ws) in *.
  set (neg := combine (map fst pos) ns).
  set (all := pos ++ neg).
  set (lbl := np_repeat_1_0 (List.length pos)).
  assert (Hneg : List.length neg = n).
  { unfold neg. rewrite length_combine, length_map, Hn, Hns. apply Nat.min_id. }
  assert (Hall : List.length all = 2 * n).
  { unfold all. rewrite length_app, Hn, Hneg. lia. }
  assert (Hlbl : List.length lbl = List.length all).
  { unfold lbl. rewrite np_repeat_1_0_length, Hn, Hall. lia. }
  destruct (np_permutation (np_read (self_np_random self) w2) (List.length all))
    as [idx st] eqn:Hperm.
  pose proof (np_permutation_perm (np_read (self_np_random self) w2) (List.length all))
    as Hp. rewrite Hperm in Hp. simpl in Hp.
  destruct (batches_exist all lbl (Z.to_nat b) Hlbl Hp) as (bs & Hbs).
  exists bs, (np_write (self_np_random self) st w2).
  assert (Hrun : run_body self (PyInt b) w
                 = (Ok (mk_locals (g_nodes G) (sampling_distribution_norm_of G) ws ts pos
                                  ns neg all lbl idx
                                  (batch_indices_of idx (Z.to_nat b)) bs),
                    np_write (self_np_random self) st w2)).
  { apply run_steps_run_body with (w1 := w1) (w2 := w2).
    constructor; simpl; try reflexivity; try assumption.
    - split; assumption.
    - fold pos. rewrite Hn. exact Hchoice.
    - fold pos. exists (map fst pos). split.
      + unfold column0. destruct pos; [simpl in Hn; lia|reflexivity].
      + unfold column_stack. rewrite length_map, Hn, Hns, Nat.eqb_refl. reflexivity.
    - unfold rs_permutation. fold pos neg all. now rewrite Hperm. }
  split; [unfold run, bind; now rewrite Hrun|].
  assert (Hcat : List.concat (batch_indices_of idx (Z.to_nat b)) = idx).
  { apply concat_batch_indices. lia. }
  destruct (@batches_cover _ _ _ _ _ _ Hlbl Hp Hcat Hbs) as (Hp1 & Hp2 & _).
  split; [|split].
  - rewrite (rmapM_ok_length _ _ Hbs), batch_indices_length.
    apply Permutation_length in Hp. rewrite length_seq in Hp.
    unfold ceil_div. now rewrite Hp, Hall.
  - apply Permutation_length in Hp1. now rewrite Hp1.
  - apply Permutation_length in Hp2. now rewrite Hp2, Hlbl.
Qed.

End Returns.

(** ** The rows of the output *)

Lemma Permutation_filter_same {A} (f : A -> bool) (l m : list A) :
  Permutation l m -> Permutation (filter f l) (filter f m).
Proof.
  induction 1 as [|x l m _ IH|x y l|l m k _ IH1 _ IH2]; simpl.
  - constructor.
  - destruct (f x); [now constructor|assumption].
  - destruct (f x), (f y); try reflexivity. apply perm_swap.
  - etransitivity; eassumption.
Qed.

Lemma combine_app_same {A B} (a b : list A) (c d : list B) :
  List.length a = List.length c ->
  combine (a ++ b) (c ++ d) = combine a c ++ combine b d.
Proof.
  revert c. induction a as [|x a IH]; intros [|y c] Hlen; simpl in *;
    try discriminate; [reflexivity|].
  f_equal. apply IH. lia.
Qed.

Lemma map_fst_combine {A B} (a : list A) (b : list B) :
  List.length a = List.length b -> map fst (combine a b) = a.
Proof.
  revert b. induction a as [|x a IH]; intros [|y b] Hlen; simpl in *;
    try discriminate; [reflexivity|].
  f_equal. apply IH. lia.
Qed.

Lemma filter_label_repeat {A} (a : list A) (u v : Z) (n : nat) :
  List.length a = n ->
  filter (fun row => Z.eqb (snd row) v) (combine a (repeat u n))
  = if Z.eqb u v then combine a (repeat u n) else [].
Proof.
  intros <-. induction a as [|x a IH]; simpl; [now destruct (Z.eqb u v)|].
  rewrite IH. now destruct (Z.eqb u v).
Qed.

Lemma Forall2_nth_error_r {A B} (R : A -> B -> Prop) (l : list A) (m : list B)
    (n : nat) (y : B) :
  Forall2 R l m -> nth_error m n = Some y ->
  exists x, nth_error l n = Some x /\ R x y.
Proof.
  intros H. revert n. induction H as [|x0 y0 l m Hxy _ IH]; intros [|n]; simpl;
    try discriminate.
  - intros Hy. injection Hy as <-. eauto.
  - apply IH.
Qed.

Lemma Forall2_nth_error_l {A B} (R : A -> B -> Prop) (l : list A) (m : list B)
    (n : nat) (x : A) :
  Forall2 R l m -> nth_error l n = Some x ->
  exists y, nth_error m n = Some y /\ R x y.
Proof.
  intros H. revert n. induction H as [|x0 y0 l m Hxy _ IH]; intros [|n]; simpl;
    try discriminate.
  - intros Hx. injection Hx as <-. eauto.
  - apply IH.
Qed.

Section Rows.
Context {E : Externals} {EOk : ExternalsOk E}.

Lemma rows_labelled_pool (pos neg : list (NodeId * NodeId)) :
  List.length neg = List.length pos ->
  rows_labelled 1 (combine (pos ++ neg) (np_repeat_1_0 (List.length pos))) = pos /\
  rows_labelled 0 (combine (pos ++ neg) (np_repeat_1_0 (List.length pos))) = neg.
Proof.
  intros Hlen. unfold rows_labelled, np_repeat_1_0.
  rewrite combine_app_same by now rewrite repeat_length.
  rewrite !filter_app.
  rewrite !(@filter_label_repeat _ pos _ _ (List.length pos) eq_refl).
  rewrite !(@filter_label_repeat _ neg _ _ (List.length pos) Hlen).
  simpl. rewrite app_nil_r.
  split; apply map_fst_combine; now rewrite repeat_length.
Qed.

(** X9: in the output of a call of [run] that returns, the rows with
    label 1 are, as a multiset, the positive pairs and the rows with label
    0 are the negative pairs; so the targets of the rows with label 1 and
    the targets of the rows with label 0 are the same multiset of nodes,
    although a single batch need not be balanced. *)
Theorem output_rows_by_label (self : UnsupervisedSampler) (batch_size : pyval)
    (w : World) (l : run_locals) (w' : World) :
  run_body self batch_size w = (Ok l, w') ->
  Permutation (rows_labelled 1 (labelled_rows (batches l))) (positive_pairs l) /\
  Permutation (rows_labelled 0 (labelled_rows (batches l))) (negative_pairs l) /\
  Permutation (map fst (rows_labelled 1 (labelled_rows (batches l))))
              (map fst (rows_labelled 0 (labelled_rows (batches l)))).
Proof.
  intros Hrun. apply run_body_steps in Hrun.
  destruct Hrun as (b & w1 & w2 & _ & Hsteps).
  pose proof (run_steps_lengths Hsteps) as (_ & Hns & Hnp & Hlen & _ & Hll).
  destruct Hsteps as [[Hb _] _ _ _ _ _ _ _ Hps Hl Hi Hbi Hbs].
  apply rs_permutation_ok in Hi.
  pose proof (np_permutation_perm (np_read (self_np_random self) w2)
                                  (List.length (pairs l))) as Hperm.
  rewrite Hi in Hperm. simpl in Hperm.
  assert (Hcat : List.concat (batch_indices l) = indices l).
  { rewrite Hbi. apply concat_batch_indices. lia. }
  destruct (@batches_cover _ _ _ _ _ _ Hll Hperm Hcat Hbs) as (_ & _ & Hrows).
  rewrite Hps, Hl in Hrows.
  destruct (rows_labelled_pool (positive_pairs l) (negative_pairs l) Hlen) as [H1 H0].
  assert (P1 : Permutation (rows_labelled 1 (labelled_rows (batches l)))
                           (positive_pairs l)).
  { pose proof (Permutation_map fst
                  (Permutation_filter_same
                     (fun row : NodeId * NodeId * Z => Z.eqb (snd row) 1) Hrows)) as P.
    unfold rows_labelled in H1 |- *. now rewrite H1 in P. }
  assert (P0 : Permutation (rows_labelled 0 (labelled_rows (batches l)))
                           (negative_pairs l)).
  { pose proof (Permutation_map fst
                  (Permutation_filter_same
                     (fun row : NodeId * NodeId * Z => Z.eqb (snd row) 0) Hrows)) as P.
    unfold rows_labelled in H0 |- *. now rewrite H0 in P. }
  split; [exact P1|]. split; [exact P0|].
  etransitivity; [apply Permutation_map; exact P1|].
  etransitivity; [|symmetry; apply Permutation_map; exact P0].
  rewrite Hnp. rewrite map_fst_combine; [reflexivity|].
  now rewrite length_map, Hns.
Qed.

(** X10: in a call of [run] that returns, row [j] of batch [k] is the pair
    at index [indices[k * batch_size + j]] of the pool, and its label is 1
    exactly when that index is below the number of positive pairs: a row
    with label 1 is that positive pair, a row with label 0 is the negative
    pair at the index less the number of positive pairs. *)
Theorem batch_row (self : UnsupervisedSampler) (b : Z)
    (w : World) (l : run_locals) (w' : World) :
  run_body self (PyInt b) w = (Ok l, w') ->
  forall k ps ls j p,
    nth_error (batches l) k = Some (ps, ls) ->
    nth_error ps j = Some p ->
    exists i,
      nth_error (indices l) (k * Z.to_nat b + j) = Some i /\
      nth_error (pairs l) i = Some p /\
      nth_error ls j = Some (if (i <? List.length (positive_pairs l))%nat then 1%Z else 0%Z) /\
      if i <? List.length (positive_pairs l)
      then nth_error (positive_pairs l) i = Some p
      else nth_error (negative_pairs l) (i - List.length (positive_pairs l)) = Some p.
Proof.
  intros Hrun k ps ls j p Hk Hj. apply run_body_steps in Hrun.
  destruct Hrun as (b' & w1 & w2 & Hb' & Hsteps). injection Hb' as <-.
  pose proof (run_steps_lengths Hsteps) as (_ & _ & _ & Hlen & Hpl & Hll).
  destruct Hsteps as [[Hb _] _ _ _ _ _ _ _ Hps Hl _ Hbi Hbs].
  pose proof (@batches_indexed _ _ _ _ _ Hbs) as Hidx.
  destruct (Forall2_nth_error_r _ Hidx Hk) as (chunk & Hchunk & Hrows & Hlabels).
  simpl in Hrows, Hlabels.
  destruct (Forall2_nth_error_r _ Hrows Hj) as (i & Hi & Hp). unfold indexed in Hp.
  destruct (Forall2_nth_error_l _ Hlabels Hi) as (y & Hy & Hlab). unfold indexed in Hlab.
  rewrite Hbi in Hchunk.
  apply batch_indices_nth in Hchunk; [|lia]. destruct Hchunk as (-> & _).
  rewrite nth_error_firstn, nth_error_skipn in Hi.
  destruct (Nat.ltb_spec j (Z.to_nat b)); [|discriminate].
  exists i. split; [exact Hi|]. split; [exact Hp|].
  assert (Hin : i < List.length (pairs l)).
  { apply nth_error_Some. congruence. }
  rewrite Hl in Hlab. unfold np_repeat_1_0 in Hlab.
  rewrite nth_error_app, repeat_length in Hlab.
  rewrite Hps, nth_error_app in Hp.
  destruct (Nat.ltb_spec i (List.length (positive_pairs l))) as [Hlt|Hge].
  - rewrite nth_error_repeat in Hlab by assumption. split; [congruence|exact Hp].
  - rewrite nth_error_repeat in Hlab by lia. split; [congruence|exact Hp].
Qed.

End Rows.

(** ** The further properties on the graph A, B, C, D *)

Lemma run_touches_only_its_streams_witness :
  Heap 3 <> self_np_random Toy.sampler /\
  Heap 2 <> wk_rng (self_walker Toy.sampler) /\
  graphs (snd (run_calls Toy.sampler [PyInt 4; PyInt 3] Toy.world1)) = graphs Toy.world1 /\
  np_read (Heap 3) (snd (run_calls Toy.sampler [PyInt 4; PyInt 3] Toy.world1))
  = np_read (Heap 3) Toy.world1 /\
  py_read (Heap 2) (snd (run_calls Toy.sampler [PyInt 4; PyInt 3] Toy.world1))
  = py_read (Heap 2) Toy.world1.
Proof.
  assert (Hn : Heap 3 <> self_np_random Toy.sampler) by discriminate.
  assert (Hp : Heap 2 <> wk_rng (self_walker Toy.sampler)) by discriminate.
  destruct (run_touches_only_its_streams Toy.sampler [PyInt 4; PyInt 3] Toy.world1)
    as (Hg & _ & _ & Hnp & Hpy).
  split; [exact Hn|]. split; [exact Hp|]. split; [exact Hg|].
  split; [exact (Hnp _ Hn)|exact (Hpy _ Hp)].
Defined.

Lemma run_advances_streams_witness :
  run_body Toy.sampler (PyInt 4) Toy.world1 = (Ok Toy.locals4, Toy.world2) /\
  walker_run (wk_kind (self_walker Toy.sampler))
             (graphs Toy.world1 (wk_graph (self_walker Toy.sampler)))
             (py_read (wk_rng (self_walker Toy.sampler)) Toy.world1)
             (self_nodes Toy.sampler) (self_length Toy.sampler)
             (self_number_of_walks Toy.sampler) (walker_bias Toy.sampler)
  = (Ok (walks Toy.locals4), py_read (wk_rng (self_walker Toy.sampler)) Toy.world2) /\
  exists st,
    np_choice (np_read (self_np_random Toy.sampler) Toy.world1) (all_nodes Toy.locals4)
              (List.length (positive_pairs Toy.locals4))
              (sampling_distribution_norm Toy.locals4)
    = (Ok (negative_samples Toy.locals4), st) /\
    np_permutation st (List.length (pairs Toy.locals4))
    = (indices Toy.locals4, np_read (self_np_random Toy.sampler) Toy.world2).
Proof.
  split; [exact ToyFacts.run_sampler|].
  exact (run_advances_streams Toy.sampler (PyInt 4) Toy.world1 ToyFacts.run_sampler).
Defined.

Lemma runs_do_not_interfere_witness :
  self_np_random Toy.sampler <> self_np_random Toy.sampler2 /\
  wk_rng (self_walker Toy.sampler) <> wk_rng (self_walker Toy.sampler2) /\
  fst (run_calls Toy.sampler2 [PyInt 4; PyInt 2]
                 (snd (run_calls Toy.sampler [PyInt 4] Toy.world1)))
  = fst (run_calls Toy.sampler2 [PyInt 4; PyInt 2] Toy.world1).
Proof.
  assert (Hn : self_np_random Toy.sampler <> self_np_random Toy.sampler2) by discriminate.
  assert (Hp : wk_rng (self_walker Toy.sampler) <> wk_rng (self_walker Toy.sampler2))
    by discriminate.
  split; [exact Hn|]. split; [exact Hp|].
  exact (@runs_do_not_interfere Toy.externals Toy.sampler Toy.sampler2 [PyInt 4]
           [PyInt 4; PyInt 2] Toy.world1 Hn Hp).
Defined.

Lemma seeded_instances_in_one_world_witness :
  is_ok (fst (__init__ (GraphRef 0) None 2 1 (Some 1%Z) WalkerNone [] Toy.world)) = true /\
  match __init__ (GraphRef 0) None 2 1 (Some 1%Z) WalkerNone [] Toy.world with
  | (Ok e1, w1) =>
      match __init__ (GraphRef 0) None 2 1 (Some 1%Z) WalkerNone [] w1 with
      | (Ok e2, w2) =>
          self_np_random e1 <> self_np_random e2 /\
          wk_rng (self_walker e1) <> wk_rng (self_walker e2) /\
          forall sizes1 sizes,
            fst (run_calls e2 sizes (snd (run_calls e1 sizes1 w2)))
            = fst (run_calls e1 sizes w2)
      | (Raise _, _) => False
      end
  | (Raise e, w1) =>
      fst (__init__ (GraphRef 0) None 2 1 (Some 1%Z) WalkerNone [] w1) = Raise e
  end.
Proof.
  split; [reflexivity|].
  exact (@seeded_instances_in_one_world Toy.externals (GraphRef 0) None 2 1 1 [] Toy.world).
Defined.

Lemma constructor_outcome_witness :
  __init__ (NotAGraph PyNone) None 2 1 (Some 1%Z) WalkerNone [] Toy.world
  = (Raise (mk_exn ValueError msg_graph), Toy.world) /\
  __init__ (GraphRef 0) None 2 1 (Some 1%Z) (WalkerOther (PyInt 3)) [] Toy.world
  = (Raise (mk_exn TypeError msg_walker), Toy.world) /\
  __init__ (GraphRef 0) None 2 1 (Some 1%Z) WalkerNone [] Toy.world
  = (Ok Toy.sampler, Toy.world1) /\
  (exists l, GraphRef 0 = GraphRef l) /\ (forall v, WalkerNone <> WalkerOther v) /\
  @nodes_ok Toy.externals None /\ (2 <= 2)%Z /\ (1 <= 1)%Z.
Proof.
  split; [|split; [|split]].
  - destruct (constructor_outcome (NotAGraph PyNone) None 2 1 (Some 1%Z) WalkerNone []
                Toy.world) as (Hgraph & _).
    exact (Hgraph PyNone eq_refl).
  - destruct (constructor_outcome (GraphRef 0) None 2 1 (Some 1%Z) (WalkerOther (PyInt 3))
                [] Toy.world) as (_ & Hwalker & _).
    exact (Hwalker 0 (PyInt 3) eq_refl eq_refl).
  - exact ToyFacts.init_sampler.
  - destruct (constructor_outcome (GraphRef 0) None 2 1 (Some 1%Z) WalkerNone []
                Toy.world) as (_ & _ & Hok).
    exact (Hok Toy.sampler Toy.world1 ToyFacts.init_sampler).
Defined.

Lemma constructed_walker_and_bias_witness :
  __init__ (GraphRef 0) None 2 1 (Some 1%Z) WalkerNone [] Toy.world
  = (Ok Toy.sampler, Toy.world1) /\
  wk_kind (self_walker Toy.sampler) = UniformRandomWalk /\
  wk_graph (self_walker Toy.sampler) = self_graph Toy.sampler /\
  self_bias Toy.sampler = None.
Proof.
  split; [exact ToyFacts.init_sampler|].
  destruct (constructed_walker_and_bias (GraphRef 0) None 2 1 (Some 1%Z) WalkerNone []
              Toy.world ToyFacts.init_sampler) as (Hdefault & _ & Hbias & _).
  destruct (Hdefault eq_refl) as [Hkind Hgraph].
  split; [exact Hkind|]. split; [exact Hgraph|exact Hbias].
Defined.

Lemma pairs_of_ragged_walks_witness :
  Forall (fun walk : list (@NodeId Toy.externals) => walk <> [])
         [["A"; "B"; "C"]; ["D"]]%string /\
  (exists ts, targets_of [["A"; "B"; "C"]; ["D"]]%string = Ok ts /\
              Forall2 (fun walk t => hd_error walk = Some t)
                      [["A"; "B"; "C"]; ["D"]]%string ts /\
              List.length (pair_list ts [["A"; "B"; "C"]; ["D"]]%string)
              = list_sum (map (fun walk => List.length walk - 1)
                              [["A"; "B"; "C"]; ["D"]]%string)) /\
  In [] [["A"]; []]%string /\
  targets_of [["A"]; []]%string = Raise (mk_exn IndexError "list index out of range").
Proof.
  assert (Hne : Forall (fun walk : list (@NodeId Toy.externals) => walk <> [])
                       [["A"; "B"; "C"]; ["D"]]%string).
  { repeat constructor; discriminate. }
  assert (Hin : In (@nil (@NodeId Toy.externals)) [["A"]; []]%string).
  { right; left; reflexivity. }
  split; [exact Hne|]. split.
  - exact (proj1 (@pairs_of_ragged_walks Toy.externals [["A"; "B"; "C"]; ["D"]]%string) Hne).
  - split; [exact Hin|].
    exact (proj1 (proj2 (@pairs_of_ragged_walks Toy.externals [["A"]; []]%string) Hin)).
Defined.

Lemma run_returns_witness :
  ExternalsOk Toy.externals /\
  (1 <= 4)%Z /\ (4 mod 2 = 0)%Z /\
  run_walks Toy.sampler Toy.world1 = (Ok (walks Toy.locals4), Toy.world_walks) /\
  Forall (fun walk => walk <> []) (walks Toy.locals4) /\
  Exists (fun walk => 2 <= List.length walk) (walks Toy.locals4) /\
  rs_choice (self_np_random Toy.sampler) (g_nodes (graphs Toy.world1 0)) 4
            (sampling_distribution_norm_of (graphs Toy.world1 0)) Toy.world_walks
  = (Ok (negative_samples Toy.locals4), Toy.world_choice) /\
  List.length (negative_samples Toy.locals4) = 4 /\
  exists bs w',
    run Toy.sampler (PyInt 4) Toy.world1 = (Ok bs, w') /\
    List.length bs = ceil_div (2 * 4) (Z.to_nat 4) /\
    List.length (List.concat (map fst bs)) = 2 * 4 /\
    List.length (List.concat (map snd bs)) = 2 * 4.
Proof.
  assert (Hb : (1 <= 4)%Z) by lia.
  assert (Heven : (4 mod 2 = 0)%Z) by reflexivity.
  pose proof (step_walks ToyFacts.run_sampler_steps) as Hwalks.
  pose proof (step_negative_samples ToyFacts.run_sampler_steps) as Hchoice.
  assert (Hne : Forall (fun walk : list (@NodeId Toy.externals) => walk <> [])
                       (walks Toy.locals4)).
  { repeat constructor; discriminate. }
  assert (Hex : Exists (fun walk : list (@NodeId Toy.externals) => 2 <= List.length walk)
                       (walks Toy.locals4)).
  { left. simpl. lia. }
  assert (Hns : List.length (negative_samples Toy.locals4) = 4) by reflexivity.
  split; [exact ToyFacts.externals_ok|].
  split; [exact Hb|]. split; [exact Heven|]. split; [exact Hwalks|].
  split; [exact Hne|]. split; [exact Hex|]. split; [exact Hchoice|].
  split; [exact Hns|].
  exact (@run_returns Toy.externals ToyFacts.externals_ok Toy.sampler 4 Toy.world1
           Toy.world_walks Toy.world_choice (walks Toy.locals4)
           (negative_samples Toy.locals4) Hb Heven Hwalks Hne Hex Hchoice Hns).
Defined.

Lemma output_rows_by_label_witness :
  ExternalsOk Toy.externals /\
  run_body Toy.sampler (PyInt 4) Toy.world1 = (Ok Toy.locals4, Toy.world2) /\
  Permutation (rows_labelled 1 (labelled_rows (batches Toy.locals4)))
              (positive_pairs Toy.locals4) /\
  Permutation (rows_labelled 0 (labelled_rows (batches Toy.locals4)))
              (negative_pairs Toy.locals4) /\
  Permutation (map fst (rows_labelled 1 (labelled_rows (batches Toy.locals4))))
              (map fst (rows_labelled 0 (labelled_rows (batches Toy.locals4)))).
Proof.
  split; [exact ToyFacts.externals_ok|]. split; [exact ToyFacts.run_sampler|].
  exact (@output_rows_by_label Toy.externals ToyFacts.externals_ok Toy.sampler (PyInt 4)
           Toy.world1 Toy.locals4 Toy.world2 ToyFacts.run_sampler).
Defined.

Lemma batch_row_witness :
  run_body Toy.sampler (PyInt 4) Toy.world1 = (Ok Toy.locals4, Toy.world2) /\
  nth_error (batches Toy.locals4) 1
  = Some ([("B", "B"); ("C", "B"); ("D", "B"); ("A", "B")], [1; 1; 1; 0]%Z)%string /\
  nth_error [("B", "B"); ("C", "B"); ("D", "B"); ("A", "B")]%string 3
  = Some ("A", "B")%string /\
  exists i,
    nth_error (indices Toy.locals4) (1 * Z.to_nat 4 + 3) = Some i /\
    nth_error (pairs Toy.locals4) i = Some ("A", "B")%string /\
    nth_error [1; 1; 1; 0]%Z 3
    = Some (if (i <? List.length (positive_pairs Toy.locals4))%nat then 1%Z else 0%Z) /\
    if (i <? List.length (positive_pairs Toy.locals4))%nat
    then nth_error (positive_pairs Toy.locals4) i = Some ("A", "B")%string
    else nth_error (negative_pairs Toy.locals4)
                   (i - List.length (positive_pairs Toy.locals4))
         = Some ("A", "B")%string.
Proof.
  split; [exact ToyFacts.run_sampler|]. split; [reflexivity|]. split; [reflexivity|].
  exact (@batch_row Toy.externals Toy.sampler 4 Toy.world1 Toy.locals4 Toy.world2
           ToyFacts.run_sampler 1
           [("B", "B"); ("C", "B"); ("D", "B"); ("A", "B")]%string [1; 1; 1; 0]%Z 3
           ("A", "B")%string eq_refl eq_refl).
Defined.
